(** * spectral_cube.spectral_axis: a shallow embedding and its properties

    The module converts the spectral axis of a WCS between frequency,
    wavelength and the three Doppler velocity conventions.  The embedding
    follows [spectral_cube/spectral_axis.py] function by function:

    - Python strings are [string], indexing raises [IndexError];
    - dictionaries are insertion-ordered association lists, a missing key
      raises [KeyError];
    - WCS numbers are IEEE binary64 values ([float]), so that truthiness
      ([if mywcs.wcs.restfrq:]) and [== 0] behave as in Python;
    - exceptions are the [Raise] results of an error monad; warnings
      ([warnings.warn]) have no effect on a result and are left out;
    - WCS objects live in a store of objects: [deepcopy] allocates the
      library's copy of an object, the attribute assignments of the commit
      stage update the store in place, and so does the read of
      [pixel_scale_matrix], which makes the library set the object it is
      read from. *)

From Stdlib Require Import String Ascii ZArith Floats Lia DecimalString DecimalZ.
From stdpp Require Import base decidable option list strings.

Open Scope string_scope.
Open Scope Z_scope.
#[local] Set Warnings "-inexact-float".

(** ** Exceptions and the error monad *)

Inductive Exn : Type :=
  | ValueError (msg : string)
  | KeyError (key : string)
  | IndexError
  | TypeError (msg : string)
  | NotImplementedError (msg : string)
  | AttributeError (msg : string)
  | UnitConversionError
  | UnitsError
  | SingularMatrixError
  | RecursionError
  | Unmodelled (what : string).

Inductive Result (A : Type) : Type :=
  | Ok (a : A)
  | Raise (e : Exn).
Arguments Ok {A} a.
Arguments Raise {A} e.

Definition rbind {A B} (r : Result A) (k : A -> Result B) : Result B :=
  match r with
  | Ok a => k a
  | Raise e => Raise e
  end.

Declare Scope result_scope.
Delimit Scope result_scope with result.
Notation "'let*' x ':=' r 'in' k" := (rbind r (fun x => k))
  (at level 10, x name, r at level 100, k at level 200) : result_scope.
Notation "'let*' ' p ':=' r 'in' k" :=
  (rbind r (fun x => match x with p => k end))
  (at level 10, p pattern, r at level 100, k at level 200) : result_scope.
Open Scope result_scope.

Definition is_Ok {A} (r : Result A) : bool :=
  match r with Ok _ => true | Raise _ => false end.

(** The error messages of the module, named after the spec's taxonomy. *)
Definition InvalidCtypeLength : Exn :=
  ValueError "A valid ctype must either have 4 or 8 characters.".
Definition MissingConventionError : Exn :=
  ValueError "A velocity convention must be specified".
Definition MissingRestValueError_to_speed : Exn :=
  ValueError ("If converting from wavelength/frequency to speed, " ++
              "a reference wavelength/frequency is required.").
Definition MissingRestValueError_from_speed : Exn :=
  ValueError ("If converting from speed to wavelength/frequency, " ++
              "a reference wavelength/frequency is required.").
Definition UnitMismatchError : Exn :=
  ValueError "Conversion failed: the units of cdelt and crval don't match.".
Definition ZeroIncrementError : Exn :=
  ValueError "Conversion failed: the output CDELT would be 0.".
Definition RestValueUnitError : Exn :=
  ValueError "Rest Value was specified, but not in frequency or length units".

(** ** Python strings *)

(** [s[i]]: a one-character string, [IndexError] past the end. *)
Definition py_getitem (s : string) (i : nat) : Result string :=
  match String.get i s with
  | Some c => Ok (String c "")
  | None => Raise IndexError
  end.

(** [s[:n]]: slicing never raises. *)
Definition py_slice_to (s : string) (n : nat) : string := substring 0 n s.

(** [sub in s] for strings. *)
Definition str_contains (sub s : string) : bool :=
  match String.index 0 sub s with
  | Some _ => true
  | None => false
  end.

(** ** Dictionaries: insertion-ordered association lists *)

Section Dict.
Context {K V : Type} `{EqDecision K}.

Definition dict : Type := list (K * V).

Fixpoint dict_get (d : dict) (k : K) : option V :=
  match d with
  | [] => None
  | (k', v) :: d' => if decide (k' = k) then Some v else dict_get d' k
  end.

(** [d[k] = v]: overwrite in place, or append a new key. *)
Fixpoint dict_set (d : dict) (k : K) (v : V) : dict :=
  match d with
  | [] => [(k, v)]
  | (k', v') :: d' =>
      if decide (k' = k) then (k, v) :: d' else (k', v') :: dict_set d' k v
  end.

(** [dict(pairs)] and [d.update(e)]. *)
Definition dict_of (pairs : list (K * V)) : dict :=
  fold_left (fun d kv => dict_set d kv.1 kv.2) pairs [].
Definition dict_update (d e : dict) : dict :=
  fold_left (fun d kv => dict_set d kv.1 kv.2) e d.

Definition dict_mem (d : dict) (k : K) : bool :=
  match dict_get d k with Some _ => true | None => false end.
End Dict.
Arguments dict : clear implicits.

(** [d[k]] with its [KeyError]. *)
Definition dict_item {V} (d : dict string V) (k : string) : Result V :=
  match dict_get d k with
  | Some v => Ok v
  | None => Raise (KeyError k)
  end.

(** ** Units and quantities (astropy.units)

    A unit is a power of ten times a product of powers of the metre and the
    second: enough for Hz, m, m/s and their prefixed forms, which are the
    units a spectral axis carries. *)

Record Unit : Type := mkUnit { scale10 : Z; dim_m : Z; dim_s : Z }.

#[global] Instance Unit_eq_dec : EqDecision Unit.
Proof. solve_decision. Defined.

Definition unit_mul (a b : Unit) : Unit :=
  mkUnit (scale10 a + scale10 b) (dim_m a + dim_m b) (dim_s a + dim_s b).
Definition unit_div (a b : Unit) : Unit :=
  mkUnit (scale10 a - scale10 b) (dim_m a - dim_m b) (dim_s a - dim_s b).
Definition unit_pow (a : Unit) (n : Z) : Unit :=
  mkUnit (scale10 a * n) (dim_m a * n) (dim_s a * n).

Module u.
Definition m : Unit := mkUnit 0 1 0.
Definition s : Unit := mkUnit 0 0 1.
Definition Hz : Unit := mkUnit 0 0 (-1).
Definition um : Unit := mkUnit (-6) 1 0.
Definition km : Unit := mkUnit 3 1 0.
Definition GHz : Unit := mkUnit 9 0 (-1).
Definition m_per_s : Unit := unit_div m s.
Definition km_per_s : Unit := unit_div km s.
End u.

(** [str(unit.physical_type)], with the name astropy >= 4.3 gives a speed. *)
Definition physical_type (un : Unit) : string :=
  match dim_m un, dim_s un with
  | 1, 0 => "length"
  | 0, -1 => "frequency"
  | 1, -1 => "speed/velocity"
  | 0, 0 => "dimensionless"
  | 0, 1 => "time"
  | -1, 0 => "wavenumber"
  | 2, 0 => "area"
  | 3, 0 => "volume"
  | 1, -2 => "acceleration"
  | _, _ => "unknown"
  end.

(** ** Velocity conventions *)

(** The three functions [u.doppler_radio], [u.doppler_optical] and
    [u.doppler_relativistic], as the objects the tables are keyed by. *)
Inductive Doppler : Type :=
  | doppler_radio
  | doppler_optical
  | doppler_relativistic.

#[global] Instance Doppler_eq_dec : EqDecision Doppler.
Proof. solve_decision. Defined.

(** What a caller may pass as a velocity convention: one of the three
    functions, or a string. *)
Inductive PyVal : Type :=
  | VFun (d : Doppler)
  | VStr (s : string).

#[global] Instance PyVal_eq_dec : EqDecision PyVal.
Proof. solve_decision. Defined.

(** [x in (a, b, ...)]. *)
Definition py_in {A} `{EqDecision A} (x : A) (l : list A) : bool :=
  bool_decide (x ∈ l).

Definition _parse_velocity_convention (vc : PyVal) : option Doppler :=
  if py_in vc [VFun doppler_radio; VStr "radio"; VStr "RADIO"; VStr "VRAD";
               VStr "F"; VStr "FREQ"] then
    Some doppler_radio
  else if py_in vc [VFun doppler_optical; VStr "optical"; VStr "OPTICAL";
                    VStr "VOPT"; VStr "W"; VStr "WAVE"] then
    Some doppler_optical
  else if py_in vc [VFun doppler_relativistic; VStr "relativistic";
                    VStr "RELATIVE"; VStr "VREL"; VStr "speed"; VStr "V";
                    VStr "VELO"] then
    Some doppler_relativistic
  else None.

(** ** The module's tables *)

Definition LINEAR_CTYPES : dict Doppler string :=
  dict_of [(doppler_optical, "VOPT"); (doppler_radio, "VRAD");
           (doppler_relativistic, "VELO")].
Definition LINEAR_CTYPE_CHARS : dict Doppler string :=
  dict_of [(doppler_optical, "W"); (doppler_radio, "F");
           (doppler_relativistic, "V")].

(** [LINEAR_CTYPES[vc]] where [vc] may be [None], which is no key. *)
Definition doppler_item (d : dict Doppler string) (vc : option Doppler)
  : Result string :=
  match vc with
  | None => Raise (KeyError "None")
  | Some k =>
      match dict_get d k with
      | Some v => Ok v
      | None => Raise (KeyError "doppler")
      end
  end.

(** A value of [ALL_CTYPES]: a ctype, or, under ['speed'], the whole
    [LINEAR_CTYPES] table. *)
Inductive CtypeEntry : Type :=
  | Ctype (s : string)
  | CtypeTable (t : dict Doppler string).

Definition ALL_CTYPES : dict string CtypeEntry :=
  dict_of [("speed", CtypeTable LINEAR_CTYPES);
           ("frequency", Ctype "FREQ");
           ("length", Ctype "WAVE")].

Definition CTYPE_CHAR_TO_PHYSICALTYPE : dict string string :=
  dict_of [("W", "length"); ("A", "air wavelength"); ("F", "frequency");
           ("V", "speed")].

Definition CTYPE_TO_PHYSICALTYPE : dict string string :=
  dict_update
    (dict_of [("WAVE", "length"); ("AIR", "air wavelength");
              ("AWAV", "air wavelength"); ("FREQ", "frequency");
              ("VELO", "speed"); ("VRAD", "speed"); ("VOPT", "speed")])
    CTYPE_CHAR_TO_PHYSICALTYPE.

Definition PHYSICAL_TYPE_TO_CTYPE : dict string string :=
  dict_of (map (fun kv => (kv.2, kv.1)) CTYPE_CHAR_TO_PHYSICALTYPE).

Definition PHYSICAL_TYPE_TO_CHAR : dict string string :=
  dict_of [("speed", "V"); ("frequency", "F"); ("length", "W")].

Definition WCS_UNIT_DICT : dict string Unit :=
  dict_of [("F", u.Hz); ("W", u.m); ("V", u.m_per_s)].
Definition PHYS_UNIT_DICT : dict string Unit :=
  dict_of [("length", u.m); ("frequency", u.Hz); ("speed", u.m_per_s)].

Definition LINEAR_CUNIT_DICT : dict string Unit :=
  dict_update
    (dict_of [("VRAD", u.Hz); ("VOPT", u.m); ("FREQ", u.Hz); ("WAVE", u.m);
              ("VELO", u.m_per_s); ("AWAV", u.m)])
    WCS_UNIT_DICT.

(** ** Classifier and ctype resolver *)

Definition parse_phys_type (un : Unit) : string :=
  if str_contains "speed" (physical_type un) then "speed"
  else physical_type un.

Definition determine_vconv_from_ctype (ctype : string)
  : Result (option Doppler) :=
  if (String.length ctype <? 5)%nat then
    Ok (_parse_velocity_convention (VStr ctype))
  else if (String.length ctype =? 8)%nat then
    let* c := py_getitem ctype 7 in
    Ok (_parse_velocity_convention (VStr c))
  else Raise InvalidCtypeLength.

(** Lines 122-127 of [determine_ctype_from_vconv]: the local [in_physchar]. *)
Definition in_physchar (ctype : string) : Result string :=
  if (4 <? String.length ctype)%nat then
    py_getitem ctype 5
  else
    let* lin_cunit := dict_item LINEAR_CUNIT_DICT ctype in
    dict_item PHYSICAL_TYPE_TO_CHAR (parse_phys_type lin_cunit).

(** ["{type}-{s1}2{s2}".format(...)]; the text Python would print for the
    [LINEAR_CTYPES] table is outside the model. *)
Definition format_ctype (type : CtypeEntry) (s1 s2 : string)
  : Result CtypeEntry :=
  match type with
  | Ctype t => Ok (Ctype (t ++ "-" ++ s1 ++ "2" ++ s2))
  | CtypeTable _ => Raise (Unmodelled "repr of a dict")
  end.

Definition determine_ctype_from_vconv (ctype : string) (unit : Unit)
    (velocity_convention : option PyVal) : Result CtypeEntry :=
  let* in_physchar := in_physchar ctype in
  if decide (parse_phys_type unit = "speed") then
    match velocity_convention with
    | None =>
        let* c0 := py_getitem ctype 0 in
        if decide (c0 = "V") then Ok (Ctype ctype)
        else Raise MissingConventionError
    | Some velocity_convention =>
        let vcin := _parse_velocity_convention (VStr (py_slice_to ctype 4)) in
        let vcout := _parse_velocity_convention velocity_convention in
        if decide (vcin = vcout) then
          let* t := doppler_item LINEAR_CTYPES vcout in
          Ok (Ctype t)
        else
          let* t := doppler_item LINEAR_CTYPES vcout in
          let* s2 := doppler_item LINEAR_CTYPE_CHARS vcout in
          format_ctype (Ctype t) in_physchar s2
    end
  else
    let* in_phystype := dict_item CTYPE_TO_PHYSICALTYPE in_physchar in
    if decide (in_phystype = parse_phys_type unit) then
      dict_item ALL_CTYPES in_phystype
    else
      let* out_physchar :=
        dict_item PHYSICAL_TYPE_TO_CTYPE (parse_phys_type unit) in
      let* t := dict_item ALL_CTYPES (parse_phys_type unit) in
      format_ctype t in_physchar out_physchar.

(** ** Quantities *)

Record Quantity : Type := mkQ { value : float; unit_of : Unit }.

(** Python truthiness of a float, and [x == 0]: a NaN is truthy, both zeros
    are not. *)
Definition truthy (x : float) : bool := negb (PrimFloat.eqb x 0).

Fixpoint pow10_nat (n : nat) : float :=
  match n with
  | O => 1%float
  | S n' => (10 * pow10_nat n')%float
  end.

(** The scale of a unit against the SI base units. *)
Definition pow10 (k : Z) : float :=
  if k <? 0 then (1 / pow10_nat (Z.to_nat (- k)))%float
  else pow10_nat (Z.to_nat k).

Definition same_dims (a b : Unit) : bool :=
  bool_decide (dim_m a = dim_m b) && bool_decide (dim_s a = dim_s b).

(** [UnitBase._to]: the factor between two units of one dimension. *)
Definition unit_to (a b : Unit) : Result float :=
  if decide (a = b) then Ok 1%float
  else if same_dims a b then Ok (pow10 (scale10 a) / pow10 (scale10 b))%float
  else Raise UnitConversionError.

Definition rescale (scale v : float) : float :=
  if PrimFloat.eqb scale 1 then v else (scale * v)%float.

(** The equivalencies the module passes to [Quantity.to]. *)
Inductive Equivalency : Type :=
  | spectral_equiv
  | doppler_equiv (d : Doppler) (rest : Quantity).

(** ** The WCS object *)

Abbreviation matrix := (list (list float)) (only parsing).

(** The attributes of [mywcs.wcs] the module reads or writes, and some it
    does not ([crpix], [pc]).  The per-axis attributes are lists indexed by
    axis, [wcs_spec] is the index of the spectral axis, and [wcs_cd] is
    [None] when the object has no [cd] attribute.  A unit is stored as the
    unit itself: its FITS string and [u.Unit] of that string are astropy's
    business. *)
Record WCS : Type := mkWCS {
  wcs_crval : list float;
  wcs_cdelt : list float;
  wcs_crpix : list float;
  wcs_cunit : list Unit;
  wcs_ctype : list string;
  wcs_cd : option matrix;
  wcs_pc : matrix;
  wcs_spec : nat;
  wcs_restfrq : float;
  wcs_restwav : float
}.

(** ** What astropy and numpy compute

    The routines of the libraries are parameters of the development: the
    conversion of a value through a list of equivalencies when the units
    differ in dimension, the power function of the C library, and the two
    operations of a WCS object that run wcslib's [wcsset].

    [wcs_deepcopy w] is what the object [mywcs.deepcopy()] returns holds,
    for an object that holds [w]: [wcsset] runs on the copy, so the copy
    comes back in wcslib's canonical form (a spectral axis in its SI unit,
    reference value and increment rescaled), and an object [wcsset] refuses
    (a singular matrix, an increment of zero) is not copied.

    [pixel_scale_matrix w] is the read of [mywcs.pixel_scale_matrix]: the
    matrix or the error, and what the object itself holds after the read,
    for [wcsset] runs on the object in place.

    All that is assumed of the two is that they leave the rest frequency
    and the rest wavelength as they find them. *)
Class Astropy : Type := {
  apply_equivalencies :
    list Equivalency -> float -> Unit -> Unit -> Result float;
  wcs_deepcopy : WCS -> Result WCS;
  pixel_scale_matrix : WCS -> Result matrix * WCS;
  float_pow : float -> nat -> float;
  wcs_deepcopy_rest : forall w,
    match wcs_deepcopy w with
    | Ok w' =>
        wcs_restfrq w' = wcs_restfrq w /\ wcs_restwav w' = wcs_restwav w
    | Raise _ => True
    end;
  pixel_scale_matrix_rest : forall w,
    wcs_restfrq (pixel_scale_matrix w).2 = wcs_restfrq w /\
    wcs_restwav (pixel_scale_matrix w).2 = wcs_restwav w
}.

(** [l[i]] and [l[i] = v] on a list or an array, with their [IndexError];
    [a[i, j]] on a matrix. *)
Definition list_getitem {A} (l : list A) (i : nat) : Result A :=
  match l !! i with
  | Some x => Ok x
  | None => Raise IndexError
  end.

Definition list_setitem {A} (l : list A) (i : nat) (v : A)
  : Result (list A) :=
  if decide (i < length l)%nat then Ok (<[i:=v]> l) else Raise IndexError.

Definition matrix_getitem (a : matrix) (i j : nat) : Result float :=
  let* row := list_getitem a i in list_getitem row j.

Definition matrix_setitem (a : matrix) (i j : nat) (v : float)
  : Result matrix :=
  let* row := list_getitem a i in
  let* row' := list_setitem row j v in
  list_setitem a i row'.

(** [constants.c] *)
Module constants.
Definition c : Quantity := mkQ 299792458%float u.m_per_s.
End constants.

Section Numerics.
Context `{Astropy}.
Import constants.

(** [q.to(unit, equivalencies)]: a plain rescaling when the dimensions
    agree, the equivalencies otherwise. *)
Definition Quantity_to (q : Quantity) (unit : Unit)
    (equivalencies : list Equivalency) : Result Quantity :=
  match unit_to (unit_of q) unit with
  | Ok scale => Ok (mkQ (rescale scale (value q)) unit)
  | Raise _ =>
      match equivalencies with
      | [] => Raise UnitConversionError
      | _ =>
          let* v :=
            apply_equivalencies equivalencies (value q) (unit_of q) unit in
          Ok (mkQ v unit)
      end
  end.

Definition spectral : list Equivalency := [spectral_equiv].

(** [u.doppler_radio(rest)] and its siblings check that [rest] is a
    spectral quantity. *)
Definition doppler (d : Doppler) (rest : Quantity)
  : Result (list Equivalency) :=
  match Quantity_to rest u.Hz spectral with
  | Ok _ => Ok [doppler_equiv d rest]
  | Raise _ => Raise UnitsError
  end.

Definition q_neg (a : Quantity) : Quantity :=
  mkQ (- value a)%float (unit_of a).
Definition q_mul (a b : Quantity) : Quantity :=
  mkQ (value a * value b)%float (unit_mul (unit_of a) (unit_of b)).
Definition q_div (a b : Quantity) : Quantity :=
  mkQ (value a / value b)%float (unit_div (unit_of a) (unit_of b)).
Definition q_scale (k : float) (a : Quantity) : Quantity :=
  mkQ (k * value a)%float (unit_of a).
(** [a ** 2] and [a ** 0.5], numpy's [square] and [sqrt]. *)
Definition q_square (a : Quantity) : Quantity :=
  mkQ (value a * value a)%float (unit_pow (unit_of a) 2).
Definition q_sqrt (a : Quantity) : Result Quantity :=
  let un := unit_of a in
  if Z.even (scale10 un) && Z.even (dim_m un) && Z.even (dim_s un) then
    Ok (mkQ (PrimFloat.sqrt (value a))
            (mkUnit (scale10 un / 2) (dim_m un / 2) (dim_s un / 2)))
  else Raise (Unmodelled "fractional unit power").
(** [a + b] and [a - b]: [b] is first brought to the unit of [a]. *)
Definition q_add (a b : Quantity) : Result Quantity :=
  let* b' := Quantity_to b (unit_of a) [] in
  Ok (mkQ (value a + value b')%float (unit_of a)).
Definition q_sub (a b : Quantity) : Result Quantity :=
  let* b' := Quantity_to b (unit_of a) [] in
  Ok (mkQ (value a - value b')%float (unit_of a)).

(** [set(a) == set(b)] *)
Definition set_eqb (a b : list string) : bool :=
  forallb (fun x => py_in x b) a && forallb (fun x => py_in x a) b.

(** [rest.to(...)] when [rest] may be [None]. *)
Definition rest_to (rest : option Quantity) (unit : Unit)
  : Result Quantity :=
  match rest with
  | Some r => Quantity_to r unit spectral
  | None =>
      Raise (AttributeError "'NoneType' object has no attribute 'to'")
  end.

Definition cdelt_derivative (crval cdelt : Quantity)
    (intype outtype : string) (linear : bool) (rest : option Quantity)
  : Result Quantity :=
  if decide (intype = outtype) then Ok cdelt
  else if set_eqb [outtype; intype] ["length"; "frequency"] then
    (* Symmetric equations! *)
    let* out := dict_item PHYS_UNIT_DICT outtype in
    Quantity_to (q_mul (q_div (q_neg c) (q_square crval)) cdelt) out []
  else if py_in outtype ["frequency"; "length"]
          && str_contains "speed" intype then
    let* '(numer, denom) :=
      if linear then
        let* out := dict_item PHYS_UNIT_DICT outtype in
        let* r := rest_to rest out in
        Ok (q_mul cdelt r, c)
      else
        let* out := dict_item PHYS_UNIT_DICT outtype in
        let* r := rest_to rest out in
        let numer := q_mul (q_mul cdelt c) r in
        let* s := q_add c crval in
        let* d := q_sub (q_square c) (q_square crval) in
        let* rt := q_sqrt d in
        Ok (numer, q_mul s rt) in
    let* out := dict_item PHYS_UNIT_DICT outtype in
    if decide (outtype = "frequency") then
      Quantity_to (q_div (q_neg numer) denom) out spectral
    else
      Quantity_to (q_div numer denom) out spectral
  else if str_contains "speed" outtype
          && py_in intype ["frequency"; "length"] then
    let* '(numer, denom) :=
      if linear then
        let numer := q_mul cdelt c in
        let* inu := dict_item PHYS_UNIT_DICT intype in
        let* denom := rest_to rest inu in
        Ok (numer, denom)
      else
        let* r := rest_to rest (unit_of crval) in
        let numer :=
          q_mul (q_mul (q_mul (q_scale 4 c) crval) (q_square r)) cdelt in
        let* r' := rest_to rest (unit_of crval) in
        let* sm := q_add (q_square crval) (q_square r') in
        Ok (numer, q_square sm) in
    let* out := dict_item PHYS_UNIT_DICT outtype in
    if decide (intype = "frequency") then
      Quantity_to (q_div (q_neg numer) denom) out spectral
    else
      Quantity_to (q_div numer denom) out spectral
  else if decide (intype = "air wavelength") then
    Raise (TypeError "Air wavelength should be converted to vacuum earlier.")
  else if decide (outtype = "air wavelength") then
    Raise (TypeError "Conversion to air wavelength not supported.")
  else Raise (ValueError "Invalid in/out frames").

(** Eqn 65 of Greisen 2006 and its derivative (eqn 66). *)
Definition air_to_vac (wavelength : Quantity) : Result Quantity :=
  let* w := Quantity_to wavelength u.um [] in
  let wlum := value w in
  Ok (q_scale (1 + 1e-6 * (287.6155 + 1.62887 / float_pow wlum 2
                           + 0.01360 / float_pow wlum 4))%float
              wavelength).

Definition vac_to_air (wavelength : Quantity) : Result Quantity :=
  let* w := Quantity_to wavelength u.um [] in
  let wlum := value w in
  let nl := (1 + 1e-6 * (287.6155 + 1.62887 / float_pow wlum 2
                         + 0.01360 / float_pow wlum 4))%float in
  Ok (mkQ (value wavelength / nl)%float (unit_of wavelength)).

Definition air_to_vac_deriv (wavelength : Quantity) : Result float :=
  let* w := Quantity_to wavelength u.um [] in
  let wlum := value w in
  Ok (1 + 1e-6 * (287.6155 - 1.62887 / float_pow wlum 2
                  - 0.04080 / float_pow wlum 4))%float.

Definition get_rest_value_from_wcs (mywcs : WCS) : option Quantity :=
  if truthy (wcs_restfrq mywcs) then
    Some (mkQ (wcs_restfrq mywcs) u.Hz)
  else if truthy (wcs_restwav mywcs) then
    Some (mkQ (wcs_restwav mywcs) u.m)
  else None.
End Numerics.

(** ** The object store

    A WCS object is a reference into a store.  [deepcopy] allocates a new
    object; an attribute assignment changes the object it is made on, and
    so does a read that makes the library set the object. *)

Definition ref : Type := nat.
Abbreviation Store := (list WCS) (only parsing).
Definition M (A : Type) : Type := Store -> Result A * Store.

Definition mret {A} (a : A) : M A := fun st => (Ok a, st).
Definition mraise {A} (e : Exn) : M A := fun st => (Raise e, st).
Definition mbind {A B} (m : M A) (k : A -> M B) : M B :=
  fun st =>
    match m st with
    | (Ok a, st') => k a st'
    | (Raise e, st') => (Raise e, st')
    end.
Definition lift {A} (r : Result A) : M A := fun st => (r, st).

Notation "'let!' x ':=' m 'in' k" := (mbind m (fun x => k))
  (at level 10, x name, m at level 100, k at level 200) : result_scope.
Notation "'let!' ' p ':=' m 'in' k" :=
  (mbind m (fun x => match x with p => k end))
  (at level 10, p pattern, m at level 100, k at level 200) : result_scope.
Notation "m ';;' k" := (mbind m (fun _ => k))
  (at level 100, k at level 200, right associativity) : result_scope.

Definition dangling : Exn := Unmodelled "reference to no object".

(** Reading the attributes of an object. *)
Definition load (r : ref) : M WCS :=
  fun st =>
    match st !! r with
    | Some w => (Ok w, st)
    | None => (Raise dangling, st)
    end.

(** An assignment to an attribute of the object [r]; it may raise (an
    index out of range) and then changes nothing. *)
Definition assign (r : ref) (f : WCS -> Result WCS) : M unit :=
  fun st =>
    match st !! r with
    | Some w =>
        match f w with
        | Ok w' => (Ok tt, <[r:=w']> st)
        | Raise e => (Raise e, st)
        end
    | None => (Raise dangling, st)
    end.

Definition set_crval (i : nat) (v : float) (w : WCS) : Result WCS :=
  let* l := list_setitem (wcs_crval w) i v in
  Ok (mkWCS l (wcs_cdelt w) (wcs_crpix w) (wcs_cunit w) (wcs_ctype w)
            (wcs_cd w) (wcs_pc w) (wcs_spec w) (wcs_restfrq w)
            (wcs_restwav w)).
Definition set_cdelt (i : nat) (v : float) (w : WCS) : Result WCS :=
  let* l := list_setitem (wcs_cdelt w) i v in
  Ok (mkWCS (wcs_crval w) l (wcs_crpix w) (wcs_cunit w) (wcs_ctype w)
            (wcs_cd w) (wcs_pc w) (wcs_spec w) (wcs_restfrq w)
            (wcs_restwav w)).
Definition set_cunit (i : nat) (v : Unit) (w : WCS) : Result WCS :=
  let* l := list_setitem (wcs_cunit w) i v in
  Ok (mkWCS (wcs_crval w) (wcs_cdelt w) (wcs_crpix w) l (wcs_ctype w)
            (wcs_cd w) (wcs_pc w) (wcs_spec w) (wcs_restfrq w)
            (wcs_restwav w)).
Definition set_ctype (i : nat) (v : string) (w : WCS) : Result WCS :=
  let* l := list_setitem (wcs_ctype w) i v in
  Ok (mkWCS (wcs_crval w) (wcs_cdelt w) (wcs_crpix w) (wcs_cunit w) l
            (wcs_cd w) (wcs_pc w) (wcs_spec w) (wcs_restfrq w)
            (wcs_restwav w)).
(** [newwcs.wcs.cd[i, j] = v], for an object that has a [cd]. *)
Definition set_cd (i j : nat) (v : float) (w : WCS) : Result WCS :=
  match wcs_cd w with
  | Some a =>
      let* a' := matrix_setitem a i j v in
      Ok (mkWCS (wcs_crval w) (wcs_cdelt w) (wcs_crpix w) (wcs_cunit w)
                (wcs_ctype w) (Some a') (wcs_pc w) (wcs_spec w)
                (wcs_restfrq w) (wcs_restwav w))
  | None => Raise (AttributeError "cd")
  end.
Definition set_restfrq (v : float) (w : WCS) : Result WCS :=
  Ok (mkWCS (wcs_crval w) (wcs_cdelt w) (wcs_crpix w) (wcs_cunit w)
            (wcs_ctype w) (wcs_cd w) (wcs_pc w) (wcs_spec w) v
            (wcs_restwav w)).
Definition set_restwav (v : float) (w : WCS) : Result WCS :=
  Ok (mkWCS (wcs_crval w) (wcs_cdelt w) (wcs_crpix w) (wcs_cunit w)
            (wcs_ctype w) (wcs_cd w) (wcs_pc w) (wcs_spec w)
            (wcs_restfrq w) v).

(** ** The axis converter *)

Section Converter.
Context `{Astropy}.

Definition is_speed (unit : Unit) : bool :=
  bool_decide (parse_phys_type unit = "speed").

(** A ctype argument taken from [ALL_CTYPES]. *)
Definition ctype_string (e : CtypeEntry) : Result string :=
  match e with
  | Ctype s => Ok s
  | CtypeTable _ => Raise (Unmodelled "a dict as ctype")
  end.

(** [x[7] if len(x) > 4 else x[:4]] *)
Definition conv_part (x : string) : Result string :=
  if (4 <? String.length x)%nat then py_getitem x 7
  else Ok (py_slice_to x 4).

(** [LINEAR_CUNIT_DICT[k] if k in LINEAR_CUNIT_DICT else other] *)
Definition linear_unit_or (k : string) (other : Result Unit)
  : Result Unit :=
  if dict_mem LINEAR_CUNIT_DICT k then dict_item LINEAR_CUNIT_DICT k
  else other.

(** Lines 244-260: the rest value in force and the reference value. *)
Definition resolve_rest_value (inunit outunit : Unit)
    (rest_value wcs_rv : option Quantity)
  : Result (option Quantity * option Quantity) :=
  if str_contains "speed" (parse_phys_type outunit) then
    let* rest_value :=
      match rest_value with
      | Some rv => Ok rv
      | None =>
          match wcs_rv with
          | Some rv => Ok rv
          | None => Raise MissingRestValueError_to_speed
          end
      end in
    let* ref_value := Quantity_to rest_value u.Hz spectral in
    Ok (Some rest_value, Some ref_value)
  else if str_contains "speed" (parse_phys_type inunit) then
    match rest_value, wcs_rv with
    | Some rv, _ => Ok (rest_value, Some rv)
    | None, Some rv => Ok (rest_value, Some rv)
    | None, None => Raise MissingRestValueError_from_speed
    end
  else Ok (rest_value, None).

(** [u.spectral() + vc(ref_value)] *)
Definition spectral_plus (vc : Doppler) (ref_value : Quantity)
  : Result (list Equivalency) :=
  let* d := doppler vc ref_value in Ok (spectral ++ d)%list.

(** What lines 241-280 leave for the rest of the function. *)
Record Prelude : Type := mkPrelude {
  pre_ctype : string;
  pre_rest_value : option Quantity;
  pre_ref_value : option Quantity;
  pre_lin_cunit : Unit;
  pre_in_vcequiv : option Doppler;
  pre_out_phys : string;
  pre_out_lin_cunit : Unit;
  pre_out_vcequiv : option Doppler;
  pre_crval : float
}.

(** Lines 241-280: the ctype of the axis, the rest value in force, the
    linear units and conventions of both sides, and the reference value,
    read off the object as the call finds it.  [pre_rest_value] is
    [rest_value] as the commit stage finds it. *)
Definition convert_prelude (mywcs : WCS) (wcs_rv : option Quantity)
    (inunit outunit : Unit) (out_ctype : string)
    (rest_value : option Quantity) : Result Prelude :=
  let spec := wcs_spec mywcs in
  let* in_spec_ctype := list_getitem (wcs_ctype mywcs) spec in
  (* Check whether we need to convert the rest value first *)
  let* '(rest_value, ref_value) :=
    resolve_rest_value inunit outunit rest_value wcs_rv in
  let* lin_ctype := conv_part in_spec_ctype in
  let* lin_cunit :=
    linear_unit_or lin_ctype (list_getitem (wcs_cunit mywcs) spec) in
  let in_vcequiv :=
    _parse_velocity_convention (VStr (py_slice_to in_spec_ctype 4)) in
  let* out_ctype_conv := conv_part out_ctype in
  let* out_phys := dict_item CTYPE_TO_PHYSICALTYPE out_ctype_conv in
  if decide (out_phys = "air wavelength") then
    Raise (NotImplementedError
             "Conversion to air wavelength is not supported.")
  else
  let* out_lin_cunit := linear_unit_or out_ctype_conv (Ok outunit) in
  let out_vcequiv := _parse_velocity_convention (VStr out_ctype_conv) in
  (* Load the input values *)
  let* crval0 := list_getitem (wcs_crval mywcs) spec in
  Ok (mkPrelude in_spec_ctype rest_value ref_value lin_cunit in_vcequiv
                out_phys out_lin_cunit out_vcequiv crval0).

(** Lines 285-343, from the reference value of the prelude and the entry
    [cdelt0] of the pixel scale matrix: both are taken to be in [inunit],
    the unit the function read at line 215. *)
Definition convert_steps (p : Prelude) (inunit outunit : Unit)
    (cdelt0 : float) : Result (Quantity * Quantity) :=
  let in_spec_ctype := pre_ctype p in
  let ref_value := pre_ref_value p in
  let lin_cunit := pre_lin_cunit p in
  let in_vcequiv := pre_in_vcequiv p in
  let out_phys := pre_out_phys p in
  let out_lin_cunit := pre_out_lin_cunit p in
  let out_vcequiv := pre_out_vcequiv p in
  let crval_in := mkQ (pre_crval p) inunit in
  let cdelt_in := mkQ cdelt0 inunit in
  let* '(crval_in, cdelt_in, in_spec_ctype) :=
    if decide (in_spec_ctype = "AWAV") then
      let* k := air_to_vac_deriv crval_in in
      let cdelt_in := q_scale k cdelt_in in
      let* crval_in := air_to_vac crval_in in
      Ok (crval_in, cdelt_in, "WAVE")
    else Ok (crval_in, cdelt_in, in_spec_ctype) in
  (* 1. Convert input to input, linear *)
  let* crval_lin1 :=
    match in_vcequiv, ref_value with
    | Some vc, Some rv =>
        let* e := spectral_plus vc rv in Quantity_to crval_in lin_cunit e
    | _, _ => Quantity_to crval_in lin_cunit spectral
    end in
  let* intype :=
    dict_item CTYPE_TO_PHYSICALTYPE (py_slice_to in_spec_ctype 4) in
  let* cdelt_lin1 :=
    cdelt_derivative crval_in cdelt_in intype (parse_phys_type lin_cunit)
                     true ref_value in
  (* 2. Convert input, linear to output, linear *)
  let* crval_lin2 :=
    match ref_value with
    | None => Quantity_to crval_lin1 out_lin_cunit spectral
    | Some rv =>
        let* e := spectral_plus doppler_relativistic rv in
        Quantity_to crval_lin1 out_lin_cunit e
    end in
  let linear_middle := bool_decide (in_vcequiv = out_vcequiv) in
  let* cdelt_lin2 :=
    cdelt_derivative crval_lin1 cdelt_lin1 (parse_phys_type lin_cunit)
                     out_phys linear_middle ref_value in
  (* 3. Convert output, linear to output *)
  match out_vcequiv, ref_value with
  | Some vc, Some rv =>
      let* d := doppler vc rv in
      let* crval_out := Quantity_to crval_lin2 outunit (d ++ spectral) in
      let* cd := cdelt_derivative crval_lin2 cdelt_lin2 out_phys
                                  (parse_phys_type outunit) true
                                  ref_value in
      let* cdelt_out := Quantity_to cd outunit [] in
      Ok (crval_out, cdelt_out)
  | _, _ =>
      let* crval_out := Quantity_to crval_lin2 outunit spectral in
      let* cdelt_out := Quantity_to cdelt_lin2 outunit spectral in
      Ok (crval_out, cdelt_out)
  end.

(** Lines 345-351: the two consistency checks. *)
Definition check_output (crval_out cdelt_out : Quantity) : Result unit :=
  if decide (unit_of crval_out <> unit_of cdelt_out) then
    Raise UnitMismatchError
  else if PrimFloat.eqb (value cdelt_out) 0 then Raise ZeroIncrementError
  else Ok tt.

(** Lines 364-370: the rest value written on the copy. *)
Definition commit_rest_value (newwcs : ref) (rest_value : option Quantity)
  : M unit :=
  match rest_value with
  | None => mret tt
  | Some rv =>
      if decide (parse_phys_type (unit_of rv) = "frequency") then
        let! q := lift (Quantity_to rv u.Hz []) in
        assign newwcs (set_restfrq (value q))
      else if decide (parse_phys_type (unit_of rv) = "length") then
        let! q := lift (Quantity_to rv u.m []) in
        assign newwcs (set_restwav (value q))
      else mraise RestValueUnitError
  end.

(** [mywcs.deepcopy()]: a new object, which holds what the library's copy
    of the object holds. *)
Definition deepcopy (r : ref) : M ref :=
  fun st =>
    match st !! r with
    | Some w =>
        match wcs_deepcopy w with
        | Ok w' => (Ok (length st), (st ++ [w'])%list)
        | Raise e => (Raise e, st)
        end
    | None => (Raise dangling, st)
    end.

(** [mywcs.pixel_scale_matrix]: the value of the property, and the object
    as the read leaves it. *)
Definition read_pixel_scale_matrix (r : ref) : M matrix :=
  fun st =>
    match st !! r with
    | Some w =>
        ((pixel_scale_matrix w).1, <[r := (pixel_scale_matrix w).2]> st)
    | None => (Raise dangling, st)
    end.

(** Lines 353-372: copy the object and update the copy. *)
Definition commit (mywcs : ref) (crval_out cdelt_out : Quantity)
    (out_ctype : string) (rest_value : option Quantity) : M ref :=
  let! newwcs := deepcopy mywcs in
  let! w := load newwcs in
  let spec := wcs_spec w in
  (match wcs_cd w with
   | Some _ => assign newwcs (set_cd spec spec (value cdelt_out))
   | None => assign newwcs (set_cdelt spec (value cdelt_out))
   end) ;;
  assign newwcs (set_cunit spec (unit_of cdelt_out)) ;;
  assign newwcs (set_crval spec (value crval_out)) ;;
  assign newwcs (set_ctype spec out_ctype) ;;
  commit_rest_value newwcs rest_value ;;
  mret newwcs.

(** Lines 241-372, for the object [mywcs] and the [inunit], [wcs_rv] the
    first part of the function has left.  Line 283 reads the pixel scale
    matrix first and the spectral index after it, on the object as the
    read has left it. *)
Definition convert_main (mywcs : ref) (wcs_rv : option Quantity)
    (inunit outunit : Unit) (out_ctype : string)
    (rest_value : option Quantity) : M ref :=
  let! w := load mywcs in
  let! p :=
    lift (convert_prelude w wcs_rv inunit outunit out_ctype rest_value) in
  let! scale := read_pixel_scale_matrix mywcs in
  let! w1 := load mywcs in
  let! cdelt0 := lift (matrix_getitem scale (wcs_spec w1) (wcs_spec w1)) in
  let! '(crval_out, cdelt_out) :=
    lift (convert_steps p inunit outunit cdelt0) in
  lift (check_output crval_out cdelt_out) ;;
  commit mywcs crval_out cdelt_out out_ctype (pre_rest_value p).

(** The function itself; [fuel] bounds the depth of its recursion. *)
Fixpoint convert_rec (fuel : nat) (mywcs : ref) (outunit : Unit)
    (out_ctype : string) (rest_value : option Quantity) : M ref :=
  match fuel with
  | O => mraise RecursionError
  | S fuel' =>
      let! w := load mywcs in
      let wcs_rv := get_rest_value_from_wcs w in
      let! inunit := lift (list_getitem (wcs_cunit w) (wcs_spec w)) in
      if is_speed inunit && is_speed outunit then
        match wcs_rv with
        | Some rv =>
            let! e :=
              lift (dict_item ALL_CTYPES (parse_phys_type (unit_of rv))) in
            let! ct := lift (ctype_string e) in
            let! mywcs' :=
              convert_rec fuel' mywcs (unit_of rv) ct (Some rv) in
            let! w' := load mywcs' in
            let! inunit' :=
              lift (list_getitem (wcs_cunit w') (wcs_spec w')) in
            convert_main mywcs' wcs_rv inunit' outunit out_ctype
                         rest_value
        | None =>
            (* If there is no reference change, we want an identical WCS *)
            deepcopy mywcs
        end
      else
        convert_main mywcs wcs_rv inunit outunit out_ctype rest_value
  end.

(** The recursive call asks for a frequency or a length, so it does not
    recurse again: two levels are all the function ever uses (see
    [convert_rec_fuel]). *)
Definition convert_spectral_axis (mywcs : ref) (outunit : Unit)
    (out_ctype : string) (rest_value : option Quantity) : M ref :=
  convert_rec 2 mywcs outunit out_ctype rest_value.
End Converter.

(** ** The header and the WCS units *)

(** [str.format] of an integer: its decimal digits, with a sign when
    negative. *)
Definition py_str_int (n : Z) : string :=
  DecimalString.NilZero.string_of_int (Z.to_int n).

Section Header.
(** [u.Unit(s)], astropy's parser of unit strings. *)
Variable parse_unit : string -> Result Unit.

(** Retrieve the spectral unit from a header: the card [CUNITn], parsed,
    or [None] when the header has no such card. *)
Definition unit_from_header (header : dict string string)
    (spectral_axis_number : Z) : Result (option Unit) :=
  let cunitind := "CUNIT" ++ py_str_int spectral_axis_number in
  if dict_mem header cunitind then
    let* card := dict_item header cunitind in
    let* un := parse_unit card in
    Ok (Some un)
  else Ok None.
End Header.

(** [d.values()] *)
Definition dict_values {K V} (d : dict K V) : list V := map snd d.

(** The loop of [wcs_unit_scale] over the WCS units: the first one
    equivalent to [unit] gives the factor [wu.to(unit)]. *)
Fixpoint wcs_unit_scale_loop (wus : list Unit) (unit : Unit)
  : Result (option float) :=
  match wus with
  | [] => Ok None
  | wu :: wus' =>
      if same_dims wu unit then
        let* scale := unit_to wu unit in
        Ok (Some (rescale scale 1))
      else wcs_unit_scale_loop wus' unit
  end.

(** Determine the appropriate scaling factor to get to the equivalent WCS
    unit; [None] when no WCS unit is equivalent. *)
Definition wcs_unit_scale (unit : Unit) : Result (option float) :=
  wcs_unit_scale_loop (dict_values WCS_UNIT_DICT) unit.

(** ** A reference implementation of the library interface

    The spectral relation [frequency * wavelength = c] and the three Doppler
    formulas, evaluated on SI values; the pixel scale matrix is [cd] when
    the object has one and [diag(cdelt) * pc] otherwise; and [wcsset] as
    far as the examples need it: the spectral axis is rewritten in the SI
    unit of its dimension, its reference value and increment rescaled, and
    an increment of zero is a singular matrix.  It is what the examples
    below run on. *)
Module Reference.
Import constants.

Definition cval : float := value c.

Definition to_si (v : float) (un : Unit) : float :=
  rescale (pow10 (scale10 un)) v.
Definition of_si (v : float) (un : Unit) : float :=
  rescale (1 / pow10 (scale10 un))%float v.

Definition is_length (un : Unit) : bool := same_dims un u.m.
Definition is_frequency (un : Unit) : bool := same_dims un u.Hz.
Definition is_velocity (un : Unit) : bool := same_dims un u.m_per_s.

(** The rest value in Hz, or in m. *)
Definition rest_hz (rest : Quantity) : Result float :=
  let r := to_si (value rest) (unit_of rest) in
  if is_frequency (unit_of rest) then Ok r
  else if is_length (unit_of rest) then Ok (cval / r)%float
  else Raise UnitConversionError.
Definition rest_m (rest : Quantity) : Result float :=
  let r := to_si (value rest) (unit_of rest) in
  if is_length (unit_of rest) then Ok r
  else if is_frequency (unit_of rest) then Ok (cval / r)%float
  else Raise UnitConversionError.

Definition to_vel_freq (d : Doppler) (f0 x : float) : float :=
  match d with
  | doppler_radio => ((f0 - x) / f0 * cval)%float
  | doppler_optical => (cval * (f0 - x) / x)%float
  | doppler_relativistic =>
      ((f0 * f0 - x * x) / (f0 * f0 + x * x) * cval)%float
  end.
Definition from_vel_freq (d : Doppler) (f0 x : float) : float :=
  let voverc := (x / cval)%float in
  match d with
  | doppler_radio => (f0 * (1 - voverc))%float
  | doppler_optical => (f0 / (1 + voverc))%float
  | doppler_relativistic =>
      (f0 * PrimFloat.sqrt ((1 - voverc) / (1 + voverc)))%float
  end.
Definition to_vel_wav (d : Doppler) (w0 x : float) : float :=
  match d with
  | doppler_radio => ((x - w0) / x * cval)%float
  | doppler_optical => (cval * (x / w0 - 1))%float
  | doppler_relativistic =>
      ((x * x - w0 * w0) / (w0 * w0 + x * x) * cval)%float
  end.
Definition from_vel_wav (d : Doppler) (w0 x : float) : float :=
  let voverc := (x / cval)%float in
  match d with
  | doppler_radio => (w0 * cval / (cval - x))%float
  | doppler_optical => (w0 * (1 + voverc))%float
  | doppler_relativistic =>
      (w0 * PrimFloat.sqrt ((1 + voverc) / (1 - voverc)))%float
  end.

(** One equivalency, on an SI value: [None] when it does not relate the
    two units. *)
Definition apply_one (e : Equivalency) (x : float) (a b : Unit)
  : option (Result float) :=
  match e with
  | spectral_equiv =>
      if is_length a && is_frequency b || is_frequency a && is_length b
      then Some (Ok (cval / x)%float)
      else None
  | doppler_equiv d rest =>
      if is_frequency a && is_velocity b then
        Some (let* f0 := rest_hz rest in Ok (to_vel_freq d f0 x))
      else if is_velocity a && is_frequency b then
        Some (let* f0 := rest_hz rest in Ok (from_vel_freq d f0 x))
      else if is_length a && is_velocity b then
        Some (let* w0 := rest_m rest in Ok (to_vel_wav d w0 x))
      else if is_velocity a && is_length b then
        Some (let* w0 := rest_m rest in Ok (from_vel_wav d w0 x))
      else None
  end.

Fixpoint apply_list (es : list Equivalency) (x : float) (a b : Unit)
  : Result float :=
  match es with
  | [] => Raise UnitConversionError
  | e :: es' =>
      match apply_one e x a b with
      | Some r => r
      | None => apply_list es' x a b
      end
  end.

Definition convert_through (es : list Equivalency) (v : float)
    (a b : Unit) : Result float :=
  let* y := apply_list es (to_si v a) a b in Ok (of_si y b).

Definition scale_matrix (w : WCS) : Result matrix :=
  match wcs_cd w with
  | Some a => Ok a
  | None =>
      Ok (zip_with (fun d row => map (PrimFloat.mul d) row)
                   (wcs_cdelt w) (wcs_pc w))
  end.

Fixpoint power (x : float) (n : nat) : float :=
  match n with
  | O => 1%float
  | S n' => (x * power x n')%float
  end.

(** The object as [wcsset] leaves it.  The other axes of the examples are
    linear axes, which [wcsset] does not rescale. *)
Definition si_unit (un : Unit) : Unit := mkUnit 0 (dim_m un) (dim_s un).

Definition spectral_scale (w : WCS) : float :=
  match wcs_cunit w !! wcs_spec w with
  | Some un => pow10 (scale10 un)
  | None => 1%float
  end.

Definition rescale_at (i : nat) (k : float) (l : list float) : list float :=
  match l !! i with
  | Some x => <[i := rescale k x]> l
  | None => l
  end.

Definition wcsset_object (w : WCS) : WCS :=
  let spec := wcs_spec w in
  let k := spectral_scale w in
  mkWCS (rescale_at spec k (wcs_crval w)) (rescale_at spec k (wcs_cdelt w))
        (wcs_crpix w)
        (match wcs_cunit w !! spec with
         | Some un => <[spec := si_unit un]> (wcs_cunit w)
         | None => wcs_cunit w
         end)
        (wcs_ctype w)
        (match wcs_cd w with
         | Some a =>
             Some (match a !! spec with
                   | Some row => <[spec := map (rescale k) row]> a
                   | None => a
                   end)
         | None => None
         end)
        (wcs_pc w) spec (wcs_restfrq w) (wcs_restwav w).

(** The outcome of [wcsset]: a row of zeros in the matrix is refused. *)
Definition wcsset_outcome (w : WCS) : Result unit :=
  let zero := fun x => PrimFloat.eqb x 0 in
  let singular :=
    match wcs_cd w with
    | Some a => existsb (forallb zero) a
    | None => existsb zero (wcs_cdelt w)
    end in
  if singular then Raise SingularMatrixError else Ok tt.

Definition deepcopy_of (w : WCS) : Result WCS :=
  match wcsset_outcome w with
  | Ok _ => Ok (wcsset_object w)
  | Raise e => Raise e
  end.

Definition scale_matrix_of (w : WCS) : Result matrix * WCS :=
  (match wcsset_outcome w with
   | Ok _ => scale_matrix (wcsset_object w)
   | Raise e => Raise e
   end, wcsset_object w).

Definition astropy : Astropy :=
  Build_Astropy convert_through deepcopy_of scale_matrix_of power
    (fun w =>
       match wcsset_outcome w as o
         return match match o with
                      | Ok _ => Ok (wcsset_object w)
                      | Raise e => Raise e
                      end with
                | Ok w' =>
                    wcs_restfrq w' = wcs_restfrq w /\
                    wcs_restwav w' = wcs_restwav w
                | Raise _ => True
                end
       with
       | Ok _ => conj eq_refl eq_refl
       | Raise _ => I
       end)
    (fun w => conj eq_refl eq_refl).
End Reference.

(** A one-axis cube sampled in frequency, around the 21 cm line. *)
Definition freq_axis : WCS :=
  mkWCS [1.4e9%float] [1e5%float] [1%float] [u.Hz] ["FREQ"] None
        [[1%float]] 0 0%float 0%float.
Definition hi_rest : Quantity := mkQ 1420405751.786%float u.Hz.

(** The same cube sampled in radio velocity, with no rest value and an
    increment of zero. *)
Definition still_axis : WCS :=
  mkWCS [4.3e6%float] [0%float] [1%float] [u.m_per_s] ["VRAD"] None
        [[1%float]] 0 0%float 0%float.

(** A frequency axis that carries a rest wavelength. *)
Definition wav_rest_axis : WCS :=
  mkWCS [1.4e9%float] [1e5%float] [1%float] [u.Hz] ["FREQ"] None
        [[1%float]] 0 0%float 0.21%float.

(** A two-axis cube: a velocity axis with no rest value, after a position
    axis. *)
Definition velocity_cube : WCS :=
  mkWCS [10%float; 4.3e6%float] [0.5%float; 2e4%float] [1%float; 1%float]
        [u.m; u.km_per_s] ["XPOS"; "VRAD"] None
        [[1%float; 0%float]; [0%float; 1%float]] 1 0%float 0%float.

(** The same cube as the library's copy returns it: the velocity axis in
    m/s. *)
Definition velocity_cube_si : WCS :=
  mkWCS [10%float; 4.3e9%float] [0.5%float; 2e7%float] [1%float; 1%float]
        [u.m; u.m_per_s] ["XPOS"; "VRAD"] None
        [[1%float; 0%float]; [0%float; 1%float]] 1 0%float 0%float.

(** A frequency axis with an increment of zero. *)
Definition flat_axis : WCS :=
  mkWCS [1.4e9%float] [0%float] [1%float] [u.Hz] ["FREQ"] None
        [[1%float]] 0 0%float 0%float.

(** A radio velocity axis in km/s that carries its rest frequency, and the
    same axis in m/s. *)
Definition kms_axis : WCS :=
  mkWCS [4300%float] [20%float] [1%float] [u.km_per_s] ["VRAD"] None
        [[1%float]] 0 1420405751.786%float 0%float.
Definition kms_axis_si : WCS :=
  mkWCS [4.3e6%float] [2e4%float] [1%float] [u.m_per_s] ["VRAD"] None
        [[1%float]] 0 1420405751.786%float 0%float.

(** * Specification vocabulary *)

(** The pair {length, frequency}, in either direction. *)
Definition length_frequency_pair (intype outtype : string) : Prop :=
  (intype = "length" /\ outtype = "frequency") \/
  (intype = "frequency" /\ outtype = "length").

(** ** The commit stage, on the copy itself *)

(** One assignment, then the rest: it either changes the object or raises
    and stops. *)
Definition on_object (f : WCS -> Result WCS)
    (k : WCS -> Result unit * WCS) (w : WCS) : Result unit * WCS :=
  match f w with
  | Ok w' => k w'
  | Raise e => (Raise e, w)
  end.

Section CommitModel.
Context `{Astropy}.

(** Lines 364-370 on the copy. *)
Definition commit_rest_field (rest_value : option Quantity) (w : WCS)
  : Result WCS :=
  match rest_value with
  | None => Ok w
  | Some rv =>
      if decide (parse_phys_type (unit_of rv) = "frequency") then
        let* q := Quantity_to rv u.Hz [] in set_restfrq (value q) w
      else if decide (parse_phys_type (unit_of rv) = "length") then
        let* q := Quantity_to rv u.m [] in set_restwav (value q) w
      else Raise RestValueUnitError
  end.

(** Lines 354-360 on the copy. *)
Definition commit_increment (v : float) (w : WCS) : Result WCS :=
  match wcs_cd w with
  | Some _ => set_cd (wcs_spec w) (wcs_spec w) v w
  | None => set_cdelt (wcs_spec w) v w
  end.

(** Lines 354-370 on the copy: the outcome, and the object as the
    assignments leave it. *)
Definition commit_object (w : WCS) (crval_out cdelt_out : Quantity)
    (out_ctype : string) (rest_value : option Quantity)
  : Result unit * WCS :=
  let spec := wcs_spec w in
  on_object (commit_increment (value cdelt_out))
    (on_object (set_cunit spec (unit_of cdelt_out))
      (on_object (set_crval spec (value crval_out))
        (on_object (set_ctype spec out_ctype)
          (on_object (commit_rest_field rest_value)
            (fun w' => (Ok tt, w')))))) w.

End CommitModel.

(** ** The frame of a conversion *)

(** Two lists that differ at most at index [i]. *)
Definition agree_except {A} (i : nat) (l l' : list A) : Prop :=
  length l' = length l /\ forall j, j <> i -> l' !! j = l !! j.

Definition entry (a : matrix) (i j : nat) : option float :=
  match a !! i with
  | Some row => row !! j
  | None => None
  end.

(** Two matrices of one shape that differ at most at the entry [(i, j)]. *)
Definition matrix_agree_except (i j : nat) (a a' : matrix) : Prop :=
  length a' = length a /\
  (forall k, length <$> (a' !! k) = length <$> (a !! k)) /\
  forall k l, ~ (k = i /\ l = j) -> entry a' k l = entry a k l.

Definition cd_agree_except (i j : nat) (a a' : option matrix) : Prop :=
  match a, a' with
  | None, None => True
  | Some a, Some a' => matrix_agree_except i j a a'
  | _, _ => False
  end.

(** [w'] is [w] but for the spectral axis's increment, unit, reference
    value and ctype and for the two rest fields: the spectral index, the
    other axes and the other attributes are the same. *)
Record same_frame (w w' : WCS) : Prop := mk_same_frame {
  frame_spec : wcs_spec w' = wcs_spec w;
  frame_crpix : wcs_crpix w' = wcs_crpix w;
  frame_pc : wcs_pc w' = wcs_pc w;
  frame_crval : agree_except (wcs_spec w) (wcs_crval w) (wcs_crval w');
  frame_cdelt : agree_except (wcs_spec w) (wcs_cdelt w) (wcs_cdelt w');
  frame_cunit : agree_except (wcs_spec w) (wcs_cunit w) (wcs_cunit w');
  frame_ctype : agree_except (wcs_spec w) (wcs_ctype w) (wcs_ctype w');
  frame_cd :
    cd_agree_except (wcs_spec w) (wcs_spec w) (wcs_cd w) (wcs_cd w')
}.

(** [w'] is [w] within the frame, with the rest fields and the increment
    untouched. *)
Definition keeps (w w' : WCS) : Prop :=
  same_frame w w' /\ wcs_restfrq w' = wcs_restfrq w /\
  wcs_restwav w' = wcs_restwav w /\ wcs_cd w' = wcs_cd w /\
  wcs_cdelt w' = wcs_cdelt w.

(** The entry of the object that holds the increment: [cd[spec, spec]]
    when there is a [cd], [cdelt[spec]] otherwise. *)
Definition increment_entry (w : WCS) : option float :=
  match wcs_cd w with
  | Some a => entry a (wcs_spec w) (wcs_spec w)
  | None => wcs_cdelt w !! wcs_spec w
  end.

(** ** One pass of the converter *)

Section MainModel.
Context `{Astropy}.

(** Lines 283-351 on an object [w], from the prelude: the values the
    commit stage writes, once the two checks have passed. *)
Definition convert_numbers (w : WCS) (p : Prelude) (inunit outunit : Unit)
  : Result (Quantity * Quantity) :=
  let* scale := (pixel_scale_matrix w).1 in
  let spec := wcs_spec (pixel_scale_matrix w).2 in
  let* cdelt0 := matrix_getitem scale spec spec in
  let* '(crval_out, cdelt_out) := convert_steps p inunit outunit cdelt0 in
  let* _ := check_output crval_out cdelt_out in
  Ok (crval_out, cdelt_out).

(** The outcome of lines 241-372 on an object [w]: the values are
    computed, the checks pass, the library copies the object as the read of
    its matrix has left it, and [w'] is the copy after the assignments. *)
Definition main_ok (w : WCS) (wcs_rv : option Quantity)
    (inunit outunit : Unit) (out_ctype : string)
    (rest_value : option Quantity) (w' : WCS) : Prop :=
  exists p crval_out cdelt_out w2,
    convert_prelude w wcs_rv inunit outunit out_ctype rest_value = Ok p /\
    convert_numbers w p inunit outunit = Ok (crval_out, cdelt_out) /\
    wcs_deepcopy (pixel_scale_matrix w).2 = Ok w2 /\
    is_Ok (commit_object w2 crval_out cdelt_out out_ctype
                         (pre_rest_value p)).1 = true /\
    w' = (commit_object w2 crval_out cdelt_out out_ctype
                        (pre_rest_value p)).2.

(** One pass as the frame sees it: [w'] is the library's copy of [w] as
    the read of its matrix has left it, changed at most within the frame. *)
Definition pass (w w' : WCS) : Prop :=
  exists w2,
    wcs_deepcopy (pixel_scale_matrix w).2 = Ok w2 /\ same_frame w2 w'.

(** The reference value and the increment of the spectral axis. *)
Definition spectral_point (w : WCS) : option (float * float) :=
  match wcs_crval w !! wcs_spec w, increment_entry w with
  | Some v, Some d => Some (v, d)
  | _, _ => None
  end.

(** [a] is [b] within the relative tolerance [tol]. *)
Definition close_to (tol a b : float) : bool :=
  PrimFloat.leb (PrimFloat.abs (a - b)) (tol * PrimFloat.abs b).

(** A point that is ([v], [d]) within the relative tolerance [tol]. *)
Definition point_close (tol : float) (p : option (float * float))
    (v d : float) : bool :=
  match p with
  | Some (v', d') => close_to tol v' v && close_to tol d' d
  | None => false
  end.

(** The round trip of an axis [w] in ([unitA], [ctypeA]): to ([unitB],
    [ctypeB]) with the rest value, and back.  The outcome is whether the
    reference value and the increment come back within 1e-9, and [None]
    when a conversion raises. *)
Definition round_trip (w : WCS) (unitA : Unit) (ctypeA : string)
    (unitB : Unit) (ctypeB : string) (rest : option Quantity)
  : option bool :=
  match convert_spectral_axis 0%nat unitB ctypeB rest [w] with
  | (Ok there, st1) =>
      match convert_spectral_axis there unitA ctypeA rest st1 with
      | (Ok back, st2) =>
          match spectral_point w with
          | Some (v, d) =>
              Some (point_close 1e-9 (st2 !! back ≫= spectral_point) v d)
          | None => None
          end
      | (Raise _, _) => None
      end
  | (Raise _, _) => None
  end.

End MainModel.

(** ** The rest fields *)

Definition at_most_one_rest (w : WCS) : Prop :=
  truthy (wcs_restfrq w) && truthy (wcs_restwav w) = false.

(** The rest value of a call is of the kind the axis already has: a
    frequency does not meet a rest wavelength, nor a length a rest
    frequency. *)
Definition same_kind_as_axis (w : WCS) (rest_value : option Quantity)
  : Prop :=
  forall rv, rest_value = Some rv ->
    (parse_phys_type (unit_of rv) = "frequency" ->
     truthy (wcs_restwav w) = false) /\
    (parse_phys_type (unit_of rv) = "length" ->
     truthy (wcs_restfrq w) = false).

(** The rest field that is not of kind [k] ([true] for frequency) is
    unset; a rest value is not of the other kind. *)
Definition quiet (k : bool) (w : WCS) : Prop :=
  truthy (if k then wcs_restwav w else wcs_restfrq w) = false.

Definition not_other (k : bool) (q : option Quantity) : Prop :=
  forall rv, q = Some rv ->
    parse_phys_type (unit_of rv) <> (if k then "length" else "frequency").

(** A speed axis with a rest frequency: the conversion to the optical
    convention goes through the frequency and adds two objects. *)
Definition radio_axis : WCS :=
  mkWCS [10%float; 4.3e6%float] [0.5%float; 2e4%float] [1%float; 1%float]
        [u.m; u.m_per_s] ["XPOS"; "VRAD"] None
        [[1%float; 0%float]; [0%float; 1%float]] 1 1420405751.786%float
        0%float.

(** ** The tags of the resolver *)

(** The tags the resolver builds for a target: the root alone, or the root,
    a dash, the letter of the input, a [2] and the letter of the target. *)
Definition resolved_tag (root letter t : string) : Prop :=
  t = root \/ exists ch, t = root ++ "-" ++ String ch "" ++ "2" ++ letter.

(** The root, the letter and the convention of the five kinds of tag. *)
Definition tag_families : list (string * string * Doppler) :=
  [("VRAD", "F", doppler_radio); ("VOPT", "W", doppler_optical);
   ("VELO", "V", doppler_relativistic); ("FREQ", "F", doppler_radio);
   ("WAVE", "W", doppler_optical)].

(** * Properties *)

Ltac inv_result H :=
  repeat match type of H with
         | rbind ?x _ = _ =>
             let E := fresh "E" in
             destruct x eqn:E; cbn [rbind] in H; [|discriminate H]
         | match ?x with _ => _ end = _ =>
             let E := fresh "E" in destruct x eqn:E; try discriminate H
         end.

(** ** The ctype resolver *)

(** C1: the worked examples of the resolver.  From ['VELO-F2V'] a frequency
    gives ['FREQ'] and a length gives ['WAVE-F2W']; from ['FREQ'] a speed
    gives ['VRAD'] under the radio convention and ['VOPT-F2W'] under the
    optical one, and fails for want of a convention when none is given. *)
Theorem determine_ctype_from_vconv_examples :
  determine_ctype_from_vconv "VELO-F2V" u.Hz None = Ok (Ctype "FREQ") /\
  determine_ctype_from_vconv "VELO-F2V" u.m None = Ok (Ctype "WAVE-F2W") /\
  determine_ctype_from_vconv "FREQ" u.m_per_s (Some (VFun doppler_radio))
    = Ok (Ctype "VRAD") /\
  determine_ctype_from_vconv "FREQ" u.m_per_s (Some (VFun doppler_optical))
    = Ok (Ctype "VOPT-F2W") /\
  determine_ctype_from_vconv "FREQ" u.m_per_s None
    = Raise MissingConventionError.
Proof. repeat split; vm_compute; reflexivity. Qed.

(** The same answers for a speed given in km/s and for the conventions
    named by their strings. *)
Example determine_ctype_from_vconv_aliases :
  determine_ctype_from_vconv "FREQ" u.km_per_s (Some (VStr "radio"))
    = Ok (Ctype "VRAD") /\
  determine_ctype_from_vconv "FREQ" u.km_per_s (Some (VStr "optical"))
    = Ok (Ctype "VOPT-F2W") /\
  determine_ctype_from_vconv "FREQ" u.km_per_s (Some (VStr "relativistic"))
    = Ok (Ctype "VELO-F2V").
Proof. repeat split; vm_compute; reflexivity. Qed.

Lemma get_lt_length (s : string) (n : nat) :
  (n < String.length s)%nat -> exists ch, String.get n s = Some ch.
Proof.
  revert n. induction s as [|a s IH]; intros n Hn; simpl in *; [lia|].
  destruct n as [|n]; [eauto|]. apply IH. lia.
Qed.

(** C2, as the code has it: for a composite (8-character) tag the letter is
    the character at index 5, the sixth of the tag; for a 4-character tag it
    is the letter of the physical type of the tag's linear unit. *)
Theorem in_physchar_sixth_character (ctype : string) :
  String.length ctype = 8%nat \/ String.length ctype = 4%nat ->
  (String.length ctype = 8%nat /\
   exists ch, String.get 5 ctype = Some ch /\
              in_physchar ctype = Ok (String ch "")) \/
  (String.length ctype = 4%nat /\
   in_physchar ctype =
     let* lin_cunit := dict_item LINEAR_CUNIT_DICT ctype in
     dict_item PHYSICAL_TYPE_TO_CHAR (parse_phys_type lin_cunit)).
Proof.
  intros [H8|H4]; [left|right]; split; try assumption.
  - destruct (get_lt_length ctype 5) as [ch Hch]; [lia|].
    exists ch. split; [assumption|].
    unfold in_physchar, py_getitem. rewrite H8, Hch. reflexivity.
  - unfold in_physchar. rewrite H4. reflexivity.
Qed.

Lemma in_physchar_sixth_character_witness :
  (String.length "VELO-F2V" = 8%nat /\
   exists ch, String.get 5 "VELO-F2V" = Some ch /\
              in_physchar "VELO-F2V" = Ok (String ch "")) \/
  (String.length "VELO-F2V" = 4%nat /\
   in_physchar "VELO-F2V" =
     let* lin_cunit := dict_item LINEAR_CUNIT_DICT "VELO-F2V" in
     dict_item PHYSICAL_TYPE_TO_CHAR (parse_phys_type lin_cunit)).
Proof. apply (in_physchar_sixth_character "VELO-F2V"). left. reflexivity. Defined.

(** C2 as stated fails: on ['VELO-F2V'] the letter taken is ['F'], while the
    character at position 7 is ['V'] counting from zero and ['2'] counting
    from one. *)
Lemma in_physchar_not_position_7 :
  in_physchar "VELO-F2V" = Ok "F" /\
  py_getitem "VELO-F2V" 7 = Ok "V" /\
  py_getitem "VELO-F2V" 6 = Ok "2" /\
  in_physchar "VELO-F2V" <> py_getitem "VELO-F2V" 7 /\
  in_physchar "VELO-F2V" <> py_getitem "VELO-F2V" 6.
Proof. repeat split; try reflexivity; vm_compute; discriminate. Qed.

(** The letters of the six linear tags. *)
Example in_physchar_linear_tags :
  map in_physchar ["FREQ"; "WAVE"; "VRAD"; "VOPT"; "VELO"; "AWAV"]
  = [Ok "F"; Ok "W"; Ok "F"; Ok "W"; Ok "V"; Ok "W"].
Proof. vm_compute. reflexivity. Qed.

(** ** The classifier *)

(** C7, as the code has it: classification fails with the invalid-length
    error exactly for the tags of 5, 6, 7 or more than 8 characters; a tag
    of up to 4 characters is classified by its text, one of 8 by its eighth
    character. *)
Theorem determine_vconv_from_ctype_lengths (ctype : string) :
  (determine_vconv_from_ctype ctype = Raise InvalidCtypeLength <->
   (4 < String.length ctype)%nat /\ String.length ctype <> 8%nat) /\
  ((String.length ctype <= 4)%nat ->
   determine_vconv_from_ctype ctype
   = Ok (_parse_velocity_convention (VStr ctype))) /\
  (String.length ctype = 8%nat ->
   exists ch, String.get 7 ctype = Some ch /\
     determine_vconv_from_ctype ctype
     = Ok (_parse_velocity_convention (VStr (String ch "")))).
Proof.
  unfold determine_vconv_from_ctype.
  destruct (String.length ctype <? 5)%nat eqn:H5.
  - apply Nat.ltb_lt in H5.
    repeat split; try (intros; lia || discriminate); try reflexivity.
  - apply Nat.ltb_ge in H5.
    destruct (String.length ctype =? 8)%nat eqn:H8.
    + apply Nat.eqb_eq in H8.
      destruct (get_lt_length ctype 7) as [ch Hch]; [lia|].
      unfold py_getitem. rewrite Hch. simpl.
      repeat split; try (intros; lia || discriminate).
      intros _. exists ch. split; reflexivity.
    + apply Nat.eqb_neq in H8.
      repeat split; try (intros; lia || discriminate); try reflexivity.
Qed.

Lemma determine_vconv_from_ctype_lengths_witness :
  determine_vconv_from_ctype "VOPT-" = Raise InvalidCtypeLength.
Proof.
  apply (determine_vconv_from_ctype_lengths "VOPT-").
  split; [simpl; lia | discriminate].
Defined.

(** C7 as stated fails: the one-character tag ['F'] is classified (as the
    radio convention), and so are the empty tag and ['AIR']. *)
Lemma determine_vconv_from_short_ctype :
  String.length "F" = 1%nat /\
  determine_vconv_from_ctype "F" = Ok (Some doppler_radio) /\
  determine_vconv_from_ctype "" = Ok None /\
  determine_vconv_from_ctype "AIR" = Ok None.
Proof. repeat split. Qed.

(** ** The derivative transformer *)

Lemma same_dims_spec (a b : Unit) :
  same_dims a b = true <-> dim_m a = dim_m b /\ dim_s a = dim_s b.
Proof.
  unfold same_dims. rewrite andb_true_iff, !bool_decide_eq_true. tauto.
Qed.

Lemma unit_to_same_dims (a b : Unit) :
  same_dims a b = true ->
  exists scale, unit_to a b = Ok scale /\ (a = b -> scale = 1%float).
Proof.
  intros Hd. unfold unit_to. destruct (decide (a = b)) as [->|Hne].
  - eauto.
  - rewrite Hd. eexists. split; [reflexivity|]. intros ->. congruence.
Qed.

(** C4: between a length and a frequency, in either direction, whatever the
    [linear] flag and the rest value, the increment returned is
    [-c / crval**2 * cdelt], brought to the unit of the output type (m or
    Hz); for a reference value and an increment given in the unit of the
    input type the factor is 1 and the value is exactly that product. *)
Theorem cdelt_derivative_length_frequency `{Astropy}
    (crval cdelt : Quantity) (intype outtype : string) (linear : bool)
    (rest : option Quantity) (inunit outunit : Unit) :
  length_frequency_pair intype outtype ->
  dict_item PHYS_UNIT_DICT intype = Ok inunit ->
  dict_item PHYS_UNIT_DICT outtype = Ok outunit ->
  same_dims (unit_of crval) inunit = true ->
  same_dims (unit_of cdelt) inunit = true ->
  exists scale,
    unit_to (unit_of
               (q_mul (q_div (q_neg constants.c) (q_square crval)) cdelt))
            outunit = Ok scale /\
    cdelt_derivative crval cdelt intype outtype linear rest
    = Ok (mkQ (rescale scale
                 (- value constants.c / (value crval * value crval)
                  * value cdelt)%float)
              outunit) /\
    (unit_of crval = inunit -> unit_of cdelt = inunit ->
     cdelt_derivative crval cdelt intype outtype linear rest
     = Ok (mkQ (- value constants.c / (value crval * value crval)
                * value cdelt)%float
               outunit)).
Proof.
  intros Hpair Hin Hout Hcr Hcd.
  apply same_dims_spec in Hcr, Hcd.
  assert (Hd : same_dims
                 (unit_of (q_mul (q_div (q_neg constants.c)
                                        (q_square crval)) cdelt))
                 outunit = true).
  { apply same_dims_spec.
    destruct Hpair as [[-> ->]|[-> ->]];
      vm_compute in Hin, Hout; injection Hin as <-; injection Hout as <-;
      simpl in *; lia. }
  destruct (unit_to_same_dims _ _ Hd) as (scale & Hto & Hone).
  exists scale. split; [exact Hto|].
  assert (Hval : cdelt_derivative crval cdelt intype outtype linear rest
                 = Ok (mkQ (rescale scale
                              (- value constants.c
                               / (value crval * value crval)
                               * value cdelt)%float) outunit)).
  { unfold cdelt_derivative.
    destruct Hpair as [[-> ->]|[-> ->]];
      (destruct (decide _) as [Heq|_]; [discriminate Heq|]);
      change (set_eqb _ _) with true; cbv iota;
      rewrite Hout; cbn [rbind]; unfold Quantity_to; rewrite Hto;
      reflexivity. }
  split; [exact Hval|].
  intros Hu1 Hu2. rewrite Hval. f_equal. f_equal.
  assert (Hs : scale = 1%float).
  { apply Hone. destruct crval as [v un], cdelt as [d un'].
    simpl in *. subst un un'.
    destruct Hpair as [[-> ->]|[-> ->]];
      vm_compute in Hin, Hout; injection Hin as <-; injection Hout as <-;
      reflexivity. }
  rewrite Hs. reflexivity.
Qed.

(** A frequency axis in GHz and MHz: the product is brought to metres. *)
Lemma cdelt_derivative_length_frequency_witness :
  exists scale,
    unit_to (unit_of
               (q_mul (q_div (q_neg constants.c)
                             (q_square (mkQ 1.4%float u.GHz)))
                      (mkQ 1e-4%float u.GHz)))
            u.m = Ok scale /\
    @cdelt_derivative Reference.astropy (mkQ 1.4%float u.GHz)
      (mkQ 1e-4%float u.GHz) "frequency" "length" false None
    = Ok (mkQ (rescale scale
                 (- value constants.c / (1.4 * 1.4) * 1e-4)%float) u.m) /\
    (u.GHz = u.Hz -> u.GHz = u.Hz ->
     @cdelt_derivative Reference.astropy (mkQ 1.4%float u.GHz)
       (mkQ 1e-4%float u.GHz) "frequency" "length" false None
     = Ok (mkQ (- value constants.c / (1.4 * 1.4) * 1e-4)%float u.m)).
Proof.
  apply (@cdelt_derivative_length_frequency Reference.astropy
           (mkQ 1.4%float u.GHz) (mkQ 1e-4%float u.GHz)
           "frequency" "length" false None u.Hz u.m);
    [right; split; reflexivity | reflexivity | reflexivity
     | reflexivity | reflexivity].
Defined.

(** In SI units: at 1.4 GHz a step of 100 kHz is a step of about
    -15.3 micrometres. *)
Example cdelt_derivative_21cm :
  @cdelt_derivative Reference.astropy (mkQ 1.4e9%float u.Hz)
    (mkQ 1e5%float u.Hz) "frequency" "length" true None
  = Ok (mkQ (-1.5295533571428571e-05)%float u.m).
Proof. vm_compute. reflexivity. Qed.

(** ** The store: objects are only ever added *)

Lemma lookup_last (st : Store) (w : WCS) :
  (st ++ [w])%list !! length st = Some w.
Proof. rewrite lookup_app_r by lia. rewrite Nat.sub_diag. reflexivity. Qed.

Lemma insert_last (st : Store) (w w' : WCS) :
  <[length st := w']> (st ++ [w])%list = (st ++ [w'])%list.
Proof.
  rewrite insert_app_r_alt by lia. rewrite Nat.sub_diag. reflexivity.
Qed.

Lemma load_last (st : Store) (w : WCS) :
  load (length st) (st ++ [w])%list = (Ok w, (st ++ [w])%list).
Proof. unfold load. rewrite lookup_last. reflexivity. Qed.

Lemma assign_last (st : Store) (w : WCS) (f : WCS -> Result WCS) :
  assign (length st) f (st ++ [w])%list
  = match f w with
    | Ok w' => (Ok tt, (st ++ [w'])%list)
    | Raise e => (Raise e, (st ++ [w])%list)
    end.
Proof.
  unfold assign. rewrite lookup_last.
  destruct (f w); [rewrite insert_last|]; reflexivity.
Qed.

Lemma mbind_at {A B} (m1 m2 : M A) (k : A -> M B) (st : Store) :
  m1 st = m2 st -> mbind m1 k st = mbind m2 k st.
Proof. unfold mbind. intros ->. reflexivity. Qed.

Lemma mbind_ext {A B} (m : M A) (k1 k2 : A -> M B) (st : Store) :
  (forall a st', k1 a st' = k2 a st') -> mbind m k1 st = mbind m k2 st.
Proof.
  intros Hk. unfold mbind. destruct (m st) as [[a|e] st']; auto.
Qed.

Section CommitFacts.
Context `{Astropy}.

Lemma assign_on_object (st : Store) (w : WCS) (f : WCS -> Result WCS)
    (k : WCS -> Result unit * WCS) (m : M ref) :
  (forall w', m (st ++ [w'])%list
              = (match (k w').1 with
                 | Ok _ => Ok (length st)
                 | Raise e => Raise e
                 end, (st ++ [(k w').2])%list)) ->
  (assign (length st) f ;; m) (st ++ [w])%list
  = (match (on_object f k w).1 with
     | Ok _ => Ok (length st)
     | Raise e => Raise e
     end, (st ++ [(on_object f k w).2])%list).
Proof.
  intros Hm. unfold mbind, on_object. rewrite assign_last.
  destruct (f w) as [w'|e]; [apply Hm | reflexivity].
Qed.

Lemma commit_rest_value_last (st : Store) (w : WCS)
    (rest_value : option Quantity) :
  commit_rest_value (length st) rest_value (st ++ [w])%list
  = match commit_rest_field rest_value w with
    | Ok w' => (Ok tt, (st ++ [w'])%list)
    | Raise e => (Raise e, (st ++ [w])%list)
    end.
Proof.
  unfold commit_rest_value, commit_rest_field.
  destruct rest_value as [rv|]; [|reflexivity].
  repeat case_decide; try reflexivity;
    unfold mbind, lift;
    (destruct (Quantity_to rv _ []) as [q|e]; [|reflexivity]);
    cbn [rbind]; rewrite assign_last; reflexivity.
Qed.

(** What [commit] does to the store: one object is added, the library's
    copy of the input as the assignments leave it. *)
Lemma commit_run (mywcs : ref) (crval_out cdelt_out : Quantity)
    (out_ctype : string) (rest_value : option Quantity) (st : Store) :
  commit mywcs crval_out cdelt_out out_ctype rest_value st
  = match st !! mywcs with
    | None => (Raise dangling, st)
    | Some w =>
        match wcs_deepcopy w with
        | Raise e => (Raise e, st)
        | Ok w2 =>
            let r := commit_object w2 crval_out cdelt_out out_ctype
                                   rest_value in
            (match r.1 with
             | Ok _ => Ok (length st)
             | Raise e => Raise e
             end, (st ++ [r.2])%list)
        end
    end.
Proof.
  unfold commit, mbind at 1, deepcopy.
  destruct (st !! mywcs) as [w|]; [|reflexivity].
  destruct (wcs_deepcopy w) as [w2|]; [|reflexivity].
  unfold mbind at 1. rewrite load_last. cbv zeta.
  unfold commit_object.
  transitivity
    ((assign (length st) (commit_increment (value cdelt_out)) ;;
      assign (length st) (set_cunit (wcs_spec w2) (unit_of cdelt_out)) ;;
      assign (length st) (set_crval (wcs_spec w2) (value crval_out)) ;;
      assign (length st) (set_ctype (wcs_spec w2) out_ctype) ;;
      commit_rest_value (length st) rest_value ;;
      mret (length st)) (st ++ [w2])%list).
  { apply mbind_at. unfold commit_increment.
    destruct (wcs_cd w2) eqn:Hcd; rewrite !assign_last, ?Hcd; reflexivity. }
  repeat (apply assign_on_object; intros ?).
  unfold mbind, on_object. rewrite commit_rest_value_last.
  destruct (commit_rest_field _ _); reflexivity.
Qed.
End CommitFacts.

(** ** The frame of a conversion *)

Lemma agree_except_refl {A} (i : nat) (l : list A) : agree_except i l l.
Proof. split; auto. Qed.

Lemma agree_except_trans {A} (i : nat) (l1 l2 l3 : list A) :
  agree_except i l1 l2 -> agree_except i l2 l3 -> agree_except i l1 l3.
Proof.
  intros [Hl1 H1] [Hl2 H2]. split; [congruence|].
  intros j Hj. rewrite H2, H1 by assumption. reflexivity.
Qed.

Lemma agree_except_insert {A} (i : nat) (v : A) (l : list A) :
  agree_except i l (<[i:=v]> l).
Proof.
  split; [apply length_insert|].
  intros j Hj. apply list_lookup_insert_ne. congruence.
Qed.

Lemma matrix_agree_except_refl (i j : nat) (a : matrix) :
  matrix_agree_except i j a a.
Proof. repeat split; auto. Qed.

Lemma matrix_agree_except_trans (i j : nat) (a1 a2 a3 : matrix) :
  matrix_agree_except i j a1 a2 -> matrix_agree_except i j a2 a3 ->
  matrix_agree_except i j a1 a3.
Proof.
  intros (Hl1 & Hs1 & H1) (Hl2 & Hs2 & H2). repeat split.
  - congruence.
  - intros k. rewrite Hs2. apply Hs1.
  - intros k l Hkl. rewrite H2, H1 by assumption. reflexivity.
Qed.

Lemma matrix_agree_except_insert (i j : nat) (v : float) (a : matrix)
    (row : list float) :
  a !! i = Some row ->
  matrix_agree_except i j a (<[i := <[j := v]> row]> a).
Proof.
  intros Hrow. repeat split.
  - apply length_insert.
  - intros k. destruct (decide (k = i)) as [->|Hk].
    + rewrite list_lookup_insert_eq by (eapply lookup_lt_Some; eauto).
      rewrite Hrow. simpl. rewrite length_insert. reflexivity.
    + rewrite list_lookup_insert_ne by congruence. reflexivity.
  - intros k l Hkl. unfold entry. destruct (decide (k = i)) as [->|Hk].
    + rewrite list_lookup_insert_eq by (eapply lookup_lt_Some; eauto).
      rewrite Hrow. apply list_lookup_insert_ne. intros ->. tauto.
    + rewrite list_lookup_insert_ne by congruence. reflexivity.
Qed.

Lemma cd_agree_except_refl (i j : nat) (a : option matrix) :
  cd_agree_except i j a a.
Proof. destruct a; simpl; auto using matrix_agree_except_refl. Qed.

Lemma cd_agree_except_trans (i j : nat) (a1 a2 a3 : option matrix) :
  cd_agree_except i j a1 a2 -> cd_agree_except i j a2 a3 ->
  cd_agree_except i j a1 a3.
Proof.
  destruct a1, a2, a3; simpl; try tauto.
  apply matrix_agree_except_trans.
Qed.

Lemma same_frame_refl (w : WCS) : same_frame w w.
Proof.
  split; auto using agree_except_refl, cd_agree_except_refl.
Qed.

Lemma same_frame_trans (w1 w2 w3 : WCS) :
  same_frame w1 w2 -> same_frame w2 w3 -> same_frame w1 w3.
Proof.
  intros [Hs1 Hp1 Hc1 Hv1 Hd1 Hu1 Ht1 Hm1] [Hs2 Hp2 Hc2 Hv2 Hd2 Hu2 Ht2 Hm2].
  rewrite Hs1 in *.
  split; try congruence;
    eauto using agree_except_trans, cd_agree_except_trans.
Qed.

Create HintDb frame.
#[local] Hint Resolve agree_except_refl agree_except_insert
  cd_agree_except_refl same_frame_refl : frame.

Lemma list_setitem_Ok {A} (l l' : list A) (i : nat) (v : A) :
  list_setitem l i v = Ok l' -> l' = <[i:=v]> l /\ (i < length l)%nat.
Proof.
  unfold list_setitem. case_decide; [|discriminate].
  intros [= <-]. auto.
Qed.

Lemma list_getitem_Ok {A} (l : list A) (i : nat) (x : A) :
  list_getitem l i = Ok x -> l !! i = Some x.
Proof.
  unfold list_getitem. destruct (l !! i); [|discriminate].
  intros [= <-]. reflexivity.
Qed.

Lemma keeps_trans (w1 w2 w3 : WCS) : keeps w1 w2 -> keeps w2 w3 -> keeps w1 w3.
Proof.
  intros (F1 & A1 & B1 & C1 & D1) (F2 & A2 & B2 & C2 & D2).
  split; [eauto using same_frame_trans|]. repeat split; congruence.
Qed.

Lemma set_crval_keeps (w w' : WCS) (v : float) :
  set_crval (wcs_spec w) v w = Ok w' -> keeps w w'.
Proof.
  unfold set_crval. intros Hs. inv_result Hs. injection Hs as <-.
  apply list_setitem_Ok in E as [-> _].
  split; [constructor; simpl; auto with frame | repeat split].
Qed.

Lemma set_cunit_keeps (w w' : WCS) (v : Unit) :
  set_cunit (wcs_spec w) v w = Ok w' -> keeps w w'.
Proof.
  unfold set_cunit. intros Hs. inv_result Hs. injection Hs as <-.
  apply list_setitem_Ok in E as [-> _].
  split; [constructor; simpl; auto with frame | repeat split].
Qed.

Lemma set_ctype_keeps (w w' : WCS) (v : string) :
  set_ctype (wcs_spec w) v w = Ok w' -> keeps w w'.
Proof.
  unfold set_ctype. intros Hs. inv_result Hs. injection Hs as <-.
  apply list_setitem_Ok in E as [-> _].
  split; [constructor; simpl; auto with frame | repeat split].
Qed.

Lemma keeps_increment_entry (w w' : WCS) :
  keeps w w' -> increment_entry w' = increment_entry w.
Proof.
  intros ([Hs _ _ _ _ _ _ _] & _ & _ & Hcd & Hcdelt).
  unfold increment_entry. rewrite Hs, Hcd, Hcdelt. reflexivity.
Qed.

Lemma matrix_setitem_Ok (a a' : matrix) (i j : nat) (v : float) :
  matrix_setitem a i j v = Ok a' ->
  exists row, a !! i = Some row /\ (j < length row)%nat /\
              a' = <[i := <[j := v]> row]> a.
Proof.
  unfold matrix_setitem. intros Hs. inv_result Hs.
  apply list_getitem_Ok in E. apply list_setitem_Ok in E0 as [-> Hj].
  apply list_setitem_Ok in Hs as [-> _]. eauto.
Qed.

Section CommitFrame.
Context `{Astropy}.

(** The first assignment writes the increment and nothing else. *)
Lemma commit_increment_frame (w w' : WCS) (v : float) :
  commit_increment v w = Ok w' ->
  same_frame w w' /\ wcs_restfrq w' = wcs_restfrq w /\
  wcs_restwav w' = wcs_restwav w /\ increment_entry w' = Some v.
Proof.
  unfold commit_increment, increment_entry.
  destruct (wcs_cd w) as [a|] eqn:Hcd.
  - unfold set_cd. rewrite Hcd. intros Hs. inv_result Hs.
    injection Hs as <-. simpl.
    apply matrix_setitem_Ok in E as (row & Hrow & Hj & ->).
    split; [|repeat split].
    + constructor; simpl; auto with frame. rewrite Hcd.
      apply matrix_agree_except_insert. assumption.
    + unfold entry.
      rewrite list_lookup_insert_eq by (eapply lookup_lt_Some; eauto).
      apply list_lookup_insert_eq. assumption.
  - unfold set_cdelt. intros Hs. inv_result Hs. injection Hs as <-.
    apply list_setitem_Ok in E as [-> Hi]. simpl. rewrite Hcd.
    split; [|repeat split].
    + constructor; simpl; auto with frame. rewrite Hcd. exact I.
    + apply list_lookup_insert_eq. assumption.
Qed.

(** The last assignment writes one rest field, the one of the kind of
    the rest value, and nothing else. *)
Lemma commit_rest_field_frame (rest_value : option Quantity)
    (w w' : WCS) :
  commit_rest_field rest_value w = Ok w' ->
  same_frame w w' /\ increment_entry w' = increment_entry w /\
  (wcs_restfrq w' = wcs_restfrq w \/
   exists rv, rest_value = Some rv /\
              parse_phys_type (unit_of rv) = "frequency") /\
  (wcs_restwav w' = wcs_restwav w \/
   exists rv, rest_value = Some rv /\
              parse_phys_type (unit_of rv) = "length").
Proof.
  unfold commit_rest_field. destruct rest_value as [rv|].
  - repeat case_decide; intros Hs; try discriminate Hs; inv_result Hs;
      unfold set_restfrq, set_restwav in Hs; injection Hs as <-;
      (split; [constructor; simpl; auto with frame|]);
      (split; [reflexivity|]); split; eauto.
  - intros [= <-]. repeat split; auto with frame.
Qed.

(** Whatever the outcome, the copy stays within the frame of the
    original. *)
Lemma commit_object_frame (w : WCS) (crval_out cdelt_out : Quantity)
    (out_ctype : string) (rest_value : option Quantity) :
  same_frame w
    (commit_object w crval_out cdelt_out out_ctype rest_value).2.
Proof.
  unfold commit_object, on_object.
  destruct (commit_increment _ w) as [w1|] eqn:E1; [|apply same_frame_refl].
  apply commit_increment_frame in E1 as (F1 & _).
  assert (S1 : wcs_spec w1 = wcs_spec w) by apply F1.
  rewrite <- S1.
  destruct (set_cunit _ _ w1) as [w2|] eqn:E2; [|exact F1].
  apply set_cunit_keeps in E2 as (F2 & _).
  assert (S2 : wcs_spec w2 = wcs_spec w1) by apply F2.
  rewrite <- S2.
  destruct (set_crval _ _ w2) as [w3|] eqn:E3;
    [|eauto using same_frame_trans].
  apply set_crval_keeps in E3 as (F3 & _).
  assert (S3 : wcs_spec w3 = wcs_spec w2) by apply F3.
  rewrite <- S3.
  destruct (set_ctype _ _ w3) as [w4|] eqn:E4;
    [|eauto using same_frame_trans].
  apply set_ctype_keeps in E4 as (F4 & _).
  destruct (commit_rest_field _ w4) as [w5|] eqn:E5;
    [|eauto using same_frame_trans].
  apply commit_rest_field_frame in E5 as (F5 & _).
  simpl. eauto using same_frame_trans.
Qed.

(** When every assignment succeeds, the copy holds the new increment,
    and a rest field differs from the original's only if the rest value
    is of its kind. *)
Lemma commit_object_Ok (w : WCS) (crval_out cdelt_out : Quantity)
    (out_ctype : string) (rest_value : option Quantity) :
  let r := commit_object w crval_out cdelt_out out_ctype rest_value in
  is_Ok r.1 = true ->
  increment_entry r.2 = Some (value cdelt_out) /\
  (wcs_restfrq r.2 = wcs_restfrq w \/
   exists rv, rest_value = Some rv /\
              parse_phys_type (unit_of rv) = "frequency") /\
  (wcs_restwav r.2 = wcs_restwav w \/
   exists rv, rest_value = Some rv /\
              parse_phys_type (unit_of rv) = "length").
Proof.
  unfold commit_object, on_object.
  destruct (commit_increment _ w) as [w1|] eqn:E1; [|discriminate].
  apply commit_increment_frame in E1 as (F1 & A1 & B1 & I1).
  assert (S1 : wcs_spec w1 = wcs_spec w) by apply F1.
  rewrite <- S1.
  destruct (set_cunit _ _ w1) as [w2|] eqn:E2; [|discriminate].
  apply set_cunit_keeps in E2 as K2.
  assert (S2 : wcs_spec w2 = wcs_spec w1) by apply K2.
  rewrite <- S2.
  destruct (set_crval _ _ w2) as [w3|] eqn:E3; [|discriminate].
  apply set_crval_keeps in E3 as K3.
  assert (S3 : wcs_spec w3 = wcs_spec w2) by apply K3.
  rewrite <- S3.
  destruct (set_ctype _ _ w3) as [w4|] eqn:E4; [|discriminate].
  apply set_ctype_keeps in E4 as K4.
  pose proof (keeps_trans _ _ _ (keeps_trans _ _ _ K2 K3) K4) as K.
  destruct (commit_rest_field _ w4) as [w5|] eqn:E5; [|discriminate].
  apply commit_rest_field_frame in E5 as (F5 & I5 & A5 & B5).
  simpl. intros _.
  pose proof (keeps_increment_entry _ _ K) as IK.
  destruct K as (_ & AK & BK & _).
  split; [congruence|].
  split.
  - destruct A5 as [A5|A5]; [left; congruence | right; exact A5].
  - destruct B5 as [B5|B5]; [left; congruence | right; exact B5].
Qed.
End CommitFrame.

(** ** The converter, step by step *)

Section ConverterFacts.
Context `{Astropy}.

Lemma convert_main_run (mywcs : ref) (wcs_rv : option Quantity)
    (inunit outunit : Unit) (out_ctype : string)
    (rest_value : option Quantity) (st : Store) :
  convert_main mywcs wcs_rv inunit outunit out_ctype rest_value st
  = match st !! mywcs with
    | None => (Raise dangling, st)
    | Some w =>
        match convert_prelude w wcs_rv inunit outunit out_ctype
                              rest_value with
        | Raise e => (Raise e, st)
        | Ok p =>
            let st1 := <[mywcs := (pixel_scale_matrix w).2]> st in
            match convert_numbers w p inunit outunit with
            | Raise e => (Raise e, st1)
            | Ok (crval_out, cdelt_out) =>
                match wcs_deepcopy (pixel_scale_matrix w).2 with
                | Raise e => (Raise e, st1)
                | Ok w2 =>
                    let r := commit_object w2 crval_out cdelt_out out_ctype
                                           (pre_rest_value p) in
                    (match r.1 with
                     | Ok _ => Ok (length st)
                     | Raise e => Raise e
                     end, (st1 ++ [r.2])%list)
                end
            end
        end
    end.
Proof.
  unfold convert_main, mbind at 1, load.
  destruct (st !! mywcs) as [w|] eqn:Hw; [|reflexivity].
  assert (Hlt : (mywcs < length st)%nat) by (eapply lookup_lt_Some; eauto).
  unfold mbind at 1, lift.
  destruct (convert_prelude _ _ _ _ _ _) as [p|]; [|reflexivity].
  unfold mbind at 1, read_pixel_scale_matrix. rewrite Hw.
  unfold convert_numbers.
  destruct (pixel_scale_matrix w) as [res w1]. cbn [fst snd]. cbv zeta.
  destruct res as [scale|]; [|reflexivity]. cbn [rbind].
  unfold mbind at 1, load.
  rewrite list_lookup_insert_eq by assumption.
  unfold mbind at 1.
  destruct (matrix_getitem _ _ _) as [cdelt0|]; [|reflexivity].
  cbn [rbind]. unfold mbind at 1.
  destruct (convert_steps _ _ _ _) as [[crval_out cdelt_out]|];
    [|reflexivity].
  cbn [rbind]. unfold mbind at 1.
  destruct (check_output _ _); [|reflexivity].
  cbn [rbind].
  rewrite commit_run, list_lookup_insert_eq by assumption.
  rewrite length_insert. reflexivity.
Qed.

(** What a pass does to the store: nothing, or the read of the matrix on
    the input and then at most one new object. *)
Lemma convert_main_store (mywcs : ref) (wcs_rv : option Quantity)
    (inunit outunit : Unit) (out_ctype : string)
    (rest_value : option Quantity) (st st' : Store) (r : Result ref) :
  convert_main mywcs wcs_rv inunit outunit out_ctype rest_value st
  = (r, st') ->
  st' = st \/
  exists w ext,
    st !! mywcs = Some w /\
    st' = (<[mywcs := (pixel_scale_matrix w).2]> st ++ ext)%list.
Proof.
  rewrite convert_main_run. intros Hr.
  destruct (st !! mywcs) as [w|]; [|injection Hr as _ <-; auto].
  destruct (convert_prelude _ _ _ _ _ _) as [p|];
    [|injection Hr as _ <-; auto].
  right. exists w. cbv zeta in Hr.
  destruct (convert_numbers _ _ _ _) as [[crval_out cdelt_out]|];
    [|injection Hr as _ <-; exists []; by rewrite app_nil_r].
  destruct (wcs_deepcopy _) as [w2|];
    [|injection Hr as _ <-; exists []; by rewrite app_nil_r].
  injection Hr as _ <-. eauto.
Qed.

Lemma convert_main_Ok (mywcs : ref) (wcs_rv : option Quantity)
    (inunit outunit : Unit) (out_ctype : string)
    (rest_value : option Quantity) (st st' : Store) (newwcs : ref) :
  convert_main mywcs wcs_rv inunit outunit out_ctype rest_value st
  = (Ok newwcs, st') ->
  exists w w',
    st !! mywcs = Some w /\ newwcs = length st /\
    st' = (<[mywcs := (pixel_scale_matrix w).2]> st ++ [w'])%list /\
    main_ok w wcs_rv inunit outunit out_ctype rest_value w'.
Proof.
  rewrite convert_main_run. intros Hr.
  destruct (st !! mywcs) as [w|]; [|discriminate].
  destruct (convert_prelude _ _ _ _ _ _) as [p|] eqn:Hp; [|discriminate].
  cbv zeta in Hr.
  destruct (convert_numbers _ _ _ _) as [[crval_out cdelt_out]|] eqn:Hn;
    [|discriminate].
  destruct (wcs_deepcopy _) as [w2|] eqn:Hc; [|discriminate].
  destruct (commit_object _ _ _ _ _).1 eqn:Hk; [|discriminate].
  injection Hr as <- <-.
  exists w, (commit_object w2 crval_out cdelt_out out_ctype
                           (pre_rest_value p)).2.
  repeat split. exists p, crval_out, cdelt_out, w2.
  rewrite Hk. repeat split; assumption.
Qed.

Lemma convert_rec_S (n : nat) (mywcs : ref) (outunit : Unit)
    (out_ctype : string) (rest_value : option Quantity) :
  convert_rec (S n) mywcs outunit out_ctype rest_value
  = (let! w := load mywcs in
     let wcs_rv := get_rest_value_from_wcs w in
     let! inunit := lift (list_getitem (wcs_cunit w) (wcs_spec w)) in
     if is_speed inunit && is_speed outunit then
       match wcs_rv with
       | Some rv =>
           let! e :=
             lift (dict_item ALL_CTYPES (parse_phys_type (unit_of rv))) in
           let! ct := lift (ctype_string e) in
           let! mywcs' := convert_rec n mywcs (unit_of rv) ct (Some rv) in
           let! w' := load mywcs' in
           let! inunit' :=
             lift (list_getitem (wcs_cunit w') (wcs_spec w')) in
           convert_main mywcs' wcs_rv inunit' outunit out_ctype rest_value
       | None => deepcopy mywcs
       end
     else convert_main mywcs wcs_rv inunit outunit out_ctype rest_value).
Proof. reflexivity. Qed.

(** With a target that is not a speed the function goes straight to
    lines 241-372, whatever the fuel. *)
Lemma convert_rec_direct (n : nat) (mywcs : ref) (outunit : Unit)
    (out_ctype : string) (rest_value : option Quantity) (st : Store) :
  is_speed outunit = false ->
  convert_rec (S n) mywcs outunit out_ctype rest_value st
  = match st !! mywcs with
    | None => (Raise dangling, st)
    | Some w =>
        match list_getitem (wcs_cunit w) (wcs_spec w) with
        | Raise e => (Raise e, st)
        | Ok inunit =>
            convert_main mywcs (get_rest_value_from_wcs w) inunit
                         outunit out_ctype rest_value st
        end
    end.
Proof.
  intros Hout. rewrite convert_rec_S. unfold mbind at 1, load.
  destruct (st !! mywcs) as [w|]; [|reflexivity].
  unfold mbind at 1, lift.
  destruct (list_getitem _ _) as [inunit|]; [|reflexivity].
  rewrite Hout, andb_false_r. reflexivity.
Qed.

(** The rest value of an object is a frequency or a length. *)
Lemma get_rest_value_unit (w : WCS) (rv : Quantity) :
  get_rest_value_from_wcs w = Some rv ->
  (rv = mkQ (wcs_restfrq w) u.Hz /\ truthy (wcs_restfrq w) = true) \/
  (rv = mkQ (wcs_restwav w) u.m /\ truthy (wcs_restfrq w) = false /\
   truthy (wcs_restwav w) = true).
Proof.
  unfold get_rest_value_from_wcs.
  destruct (truthy (wcs_restfrq w)); [intros [= <-]; auto|].
  destruct (truthy (wcs_restwav w)); [intros [= <-]; auto|discriminate].
Qed.

Lemma rest_value_not_speed (w : WCS) (rv : Quantity) :
  get_rest_value_from_wcs w = Some rv -> is_speed (unit_of rv) = false.
Proof.
  intros Hrv. apply get_rest_value_unit in Hrv as [[-> _]|[-> _]];
    reflexivity.
Qed.

(** Two levels of recursion are all the function uses. *)
Lemma convert_rec_fuel (n : nat) (mywcs : ref) (outunit : Unit)
    (out_ctype : string) (rest_value : option Quantity) (st : Store) :
  convert_rec (S (S n)) mywcs outunit out_ctype rest_value st
  = convert_spectral_axis mywcs outunit out_ctype rest_value st.
Proof.
  unfold convert_spectral_axis.
  rewrite (convert_rec_S (S n)), (convert_rec_S 1).
  apply mbind_ext; intros w st1.
  apply mbind_ext; intros inunit st2.
  destruct (is_speed inunit && is_speed outunit); [|reflexivity].
  destruct (get_rest_value_from_wcs w) as [rv|] eqn:Hrv; [|reflexivity].
  apply mbind_ext; intros e st3.
  apply mbind_ext; intros ct st4.
  apply mbind_at.
  rewrite (convert_rec_direct n), (convert_rec_direct 0)
    by (eapply rest_value_not_speed; eassumption).
  reflexivity.
Qed.
End ConverterFacts.

Section ConverterRun.
Context `{Astropy}.

(** The whole function, with its binds unfolded. *)
Lemma convert_spectral_axis_run (mywcs : ref) (outunit : Unit)
    (out_ctype : string) (rest_value : option Quantity) (st : Store) :
  convert_spectral_axis mywcs outunit out_ctype rest_value st
  = match st !! mywcs with
    | None => (Raise dangling, st)
    | Some w =>
      match list_getitem (wcs_cunit w) (wcs_spec w) with
      | Raise e => (Raise e, st)
      | Ok inunit =>
        if is_speed inunit && is_speed outunit then
          match get_rest_value_from_wcs w with
          | None =>
            match wcs_deepcopy w with
            | Ok w0 => (Ok (length st), (st ++ [w0])%list)
            | Raise e => (Raise e, st)
            end
          | Some rv =>
            match dict_item ALL_CTYPES (parse_phys_type (unit_of rv)) with
            | Raise e => (Raise e, st)
            | Ok e =>
              match ctype_string e with
              | Raise e => (Raise e, st)
              | Ok ct =>
                match convert_main mywcs (Some rv) inunit (unit_of rv) ct
                                   (Some rv) st with
                | (Raise e, st1) => (Raise e, st1)
                | (Ok mywcs', st1) =>
                  match st1 !! mywcs' with
                  | None => (Raise dangling, st1)
                  | Some w1 =>
                    match list_getitem (wcs_cunit w1) (wcs_spec w1) with
                    | Raise e => (Raise e, st1)
                    | Ok inunit1 =>
                        convert_main mywcs' (Some rv) inunit1 outunit
                                     out_ctype rest_value st1
                    end
                  end
                end
              end
            end
          end
        else
          convert_main mywcs (get_rest_value_from_wcs w) inunit outunit
                       out_ctype rest_value st
      end
    end.
Proof.
  unfold convert_spectral_axis. rewrite convert_rec_S.
  unfold mbind at 1, load.
  destruct (st !! mywcs) as [w|] eqn:Hw; [|reflexivity].
  unfold mbind at 1, lift.
  destruct (list_getitem _ _) as [inunit|] eqn:Hu; [|reflexivity].
  destruct (is_speed inunit && is_speed outunit); [|reflexivity].
  destruct (get_rest_value_from_wcs w) as [rv|] eqn:Hrv.
  2:{ unfold deepcopy. rewrite Hw. reflexivity. }
  unfold mbind at 1.
  destruct (dict_item _ _) as [e|]; [|reflexivity].
  unfold mbind at 1.
  destruct (ctype_string e) as [ct|]; [|reflexivity].
  unfold mbind at 1.
  rewrite (convert_rec_direct 0)
    by (eapply rest_value_not_speed; eassumption).
  rewrite Hw, Hu, Hrv.
  destruct (convert_main mywcs (Some rv) inunit (unit_of rv) ct (Some rv) st)
    as [[mywcs'|] st1]; [|reflexivity].
  unfold mbind at 1.
  destruct (st1 !! mywcs') as [w1|]; [|reflexivity].
  unfold mbind at 1.
  destruct (list_getitem _ _) as [inunit1|]; reflexivity.
Qed.

(** The three ways the function returns an object: the library's copy of
    a speed axis with no rest value, one pass of lines 241-372, or two of
    them through the frequency or length of the rest value.  A pass leaves
    the object it reads as the read of its matrix leaves it. *)
Lemma convert_spectral_axis_Ok (mywcs : ref) (outunit : Unit)
    (out_ctype : string) (rest_value : option Quantity)
    (st st' : Store) (newwcs : ref) :
  convert_spectral_axis mywcs outunit out_ctype rest_value st
  = (Ok newwcs, st') ->
  exists w inunit,
    st !! mywcs = Some w /\
    wcs_cunit w !! wcs_spec w = Some inunit /\
    ((is_speed inunit && is_speed outunit = true /\
      get_rest_value_from_wcs w = None /\
      exists w0,
        wcs_deepcopy w = Ok w0 /\
        newwcs = length st /\ st' = (st ++ [w0])%list) \/
     (is_speed inunit && is_speed outunit = false /\
      exists w',
        newwcs = length st /\
        st' = (<[mywcs := (pixel_scale_matrix w).2]> st ++ [w'])%list /\
        main_ok w (get_rest_value_from_wcs w) inunit outunit out_ctype
                rest_value w') \/
     (is_speed inunit && is_speed outunit = true /\
      exists rv ct w1 inunit1 w',
        get_rest_value_from_wcs w = Some rv /\
        main_ok w (Some rv) inunit (unit_of rv) ct (Some rv) w1 /\
        wcs_cunit w1 !! wcs_spec w1 = Some inunit1 /\
        main_ok w1 (Some rv) inunit1 outunit out_ctype rest_value w' /\
        newwcs = S (length st) /\
        st' = (<[mywcs := (pixel_scale_matrix w).2]> st
                 ++ [(pixel_scale_matrix w1).2; w'])%list)).
Proof.
  rewrite convert_spectral_axis_run. intros Hr.
  destruct (st !! mywcs) as [w|] eqn:Hw; [|discriminate].
  destruct (list_getitem _ _) as [inunit|] eqn:Hu; [|discriminate].
  apply list_getitem_Ok in Hu.
  exists w, inunit. split; [reflexivity|]. split; [assumption|].
  destruct (is_speed inunit && is_speed outunit) eqn:Hsp.
  - destruct (get_rest_value_from_wcs w) as [rv|] eqn:Hrv.
    + right. right. split; [reflexivity|].
      destruct (dict_item _ _) as [e|]; [|discriminate].
      destruct (ctype_string e) as [ct|]; [|discriminate].
      destruct (convert_main mywcs _ _ _ _ _ st) as [[mywcs'|] st1] eqn:H1;
        [|discriminate].
      apply convert_main_Ok in H1 as (w0 & w1 & Hw0 & -> & -> & Hm1).
      rewrite Hw in Hw0. injection Hw0 as <-.
      set (st0 := <[mywcs := (pixel_scale_matrix w).2]> st) in *.
      assert (Hlen : length st0 = length st) by apply length_insert.
      rewrite <- Hlen in Hr. rewrite lookup_last in Hr.
      destruct (list_getitem _ _) as [inunit1|] eqn:Hu1; [|discriminate].
      apply list_getitem_Ok in Hu1.
      apply convert_main_Ok in Hr as (w1' & w' & Hw1 & -> & -> & Hm2).
      rewrite lookup_last in Hw1. injection Hw1 as <-.
      exists rv, ct, w1, inunit1, w'.
      repeat split; try assumption.
      * rewrite length_app. simpl. lia.
      * rewrite insert_last, <- app_assoc. reflexivity.
    + left. destruct (wcs_deepcopy w) as [w0|] eqn:Hc; [|discriminate].
      injection Hr as <- <-. eauto 10.
  - right. left. split; [reflexivity|].
    apply convert_main_Ok in Hr as (w0 & w' & Hw0 & -> & -> & Hm).
    rewrite Hw in Hw0. injection Hw0 as <-.
    exists w'. auto.
Qed.

(** What a call does to the store, whether it returns or raises: new
    objects are added at the end, and the input object is as it was or as
    the read of its pixel scale matrix leaves it. *)
Lemma convert_spectral_axis_store (mywcs : ref) (outunit : Unit)
    (out_ctype : string) (rest_value : option Quantity)
    (st st' : Store) (r : Result ref) :
  convert_spectral_axis mywcs outunit out_ctype rest_value st = (r, st') ->
  exists ext,
    st' = (st ++ ext)%list \/
    exists w, st !! mywcs = Some w /\
      st' = (<[mywcs := (pixel_scale_matrix w).2]> st ++ ext)%list.
Proof.
  rewrite convert_spectral_axis_run. intros Hr.
  assert (Hsame : forall (r0 : Result ref),
            (r0, st) = (r, st') ->
            exists ext,
              st' = (st ++ ext)%list \/
              exists w, st !! mywcs = Some w /\
                st' = (<[mywcs := (pixel_scale_matrix w).2]> st ++ ext)%list).
  { intros r0 [= _ <-]. exists []. left. by rewrite app_nil_r. }
  assert (Hone : forall r0 st0,
            convert_main mywcs r0.1 r0.2.1 r0.2.2.1 r0.2.2.2.1 r0.2.2.2.2 st
            = (r, st0) -> st0 = st' ->
            exists ext,
              st' = (st ++ ext)%list \/
              exists w, st !! mywcs = Some w /\
                st' = (<[mywcs := (pixel_scale_matrix w).2]> st ++ ext)%list).
  { intros r0 st0 Hm <-.
    apply convert_main_store in Hm as [->|(w & ext & Hw & ->)].
    - exists []. left. by rewrite app_nil_r.
    - exists ext. right. eauto. }
  destruct (st !! mywcs) as [w|] eqn:Hw; [|eapply Hsame; eassumption].
  destruct (list_getitem _ _) as [inunit|]; [|eapply Hsame; eassumption].
  destruct (is_speed inunit && is_speed outunit).
  2:{ eapply (Hone (_, (_, (_, (_, _))))); [exact Hr|reflexivity]. }
  destruct (get_rest_value_from_wcs w) as [rv|].
  2:{ destruct (wcs_deepcopy w) as [w0|]; [|eapply Hsame; eassumption].
      injection Hr as _ <-. exists [w0]. auto. }
  destruct (dict_item _ _) as [e|]; [|eapply Hsame; eassumption].
  destruct (ctype_string e) as [ct|]; [|eapply Hsame; eassumption].
  destruct (convert_main mywcs _ _ _ _ _ st) as [r1 st1] eqn:H1.
  destruct r1 as [mywcs'|].
  2:{ injection Hr as <- <-.
      eapply (Hone (_, (_, (_, (_, _))))); [exact H1|reflexivity]. }
  apply convert_main_Ok in H1 as (w0 & w1 & Hw0 & -> & -> & _).
  rewrite Hw in Hw0. injection Hw0 as <-.
  set (st0 := <[mywcs := (pixel_scale_matrix w).2]> st) in *.
  assert (Hlen : length st0 = length st) by apply length_insert.
  rewrite <- Hlen in Hr. rewrite lookup_last in Hr.
  destruct (list_getitem _ _) as [inunit1|].
  2:{ injection Hr as _ <-. exists [w1]. right. eauto. }
  apply convert_main_store in Hr as [->|(w1' & ext & Hw1 & ->)].
  - exists [w1]. right. eauto.
  - rewrite lookup_last in Hw1. injection Hw1 as <-.
    rewrite insert_last, <- app_assoc.
    eexists. right. eauto.
Qed.
End ConverterRun.

(** ** The axis converter *)

Lemma lookup_new (st ext : Store) (i : nat) (x w' : WCS) :
  (<[i := x]> st ++ w' :: ext)%list !! length st = Some w'.
Proof. apply list_lookup_middle. by rewrite length_insert. Qed.

Lemma lookup_new_second (st : Store) (i : nat) (x w1 w' : WCS) :
  (<[i := x]> st ++ [w1; w'])%list !! S (length st) = Some w'.
Proof.
  change (<[i := x]> st ++ [w1; w'])%list
    with (<[i := x]> st ++ [w1] ++ [w'])%list.
  rewrite app_assoc. apply list_lookup_middle.
  rewrite length_app, length_insert. simpl. lia.
Qed.




Section ConverterTheorems.
Context `{Astropy}.

Lemma check_output_Ok (crval_out cdelt_out : Quantity) :
  check_output crval_out cdelt_out = Ok tt ->
  unit_of crval_out = unit_of cdelt_out /\
  PrimFloat.eqb (value cdelt_out) 0 = false.
Proof.
  unfold check_output. case_decide as Hu; [discriminate|].
  destruct (PrimFloat.eqb _ _); [discriminate|].
  intros _. split; [|reflexivity].
  destruct (decide (unit_of crval_out = unit_of cdelt_out)); tauto.
Qed.

Lemma convert_numbers_Ok (w : WCS) (p : Prelude) (inunit outunit : Unit)
    (crval_out cdelt_out : Quantity) :
  convert_numbers w p inunit outunit = Ok (crval_out, cdelt_out) ->
  exists scale cdelt0,
    (pixel_scale_matrix w).1 = Ok scale /\
    matrix_getitem scale (wcs_spec (pixel_scale_matrix w).2)
                   (wcs_spec (pixel_scale_matrix w).2) = Ok cdelt0 /\
    convert_steps p inunit outunit cdelt0 = Ok (crval_out, cdelt_out) /\
    check_output crval_out cdelt_out = Ok tt.
Proof.
  unfold convert_numbers. intros Hn.
  destruct (pixel_scale_matrix w).1 as [scale|]; [|discriminate].
  cbn [rbind] in Hn. cbv zeta in Hn.
  destruct (matrix_getitem _ _ _) as [cdelt0|] eqn:Hg; [|discriminate].
  cbn [rbind] in Hn.
  destruct (convert_steps _ _ _ _) as [[c1 c2]|] eqn:Hs; [|discriminate].
  cbn [rbind] in Hn.
  destruct (check_output c1 c2) as [[]|] eqn:Hc; [|discriminate].
  cbn [rbind] in Hn. injection Hn as <- <-.
  exists scale, cdelt0. repeat split; assumption.
Qed.

(** One pass of lines 241-372 leaves an object within the frame of the
    library's copy of its input, with a nonzero increment. *)
Lemma main_ok_frame (w w' : WCS) (wcs_rv rest_value : option Quantity)
    (inunit outunit : Unit) (out_ctype : string) :
  main_ok w wcs_rv inunit outunit out_ctype rest_value w' ->
  pass w w' /\
  exists v, increment_entry w' = Some v /\ PrimFloat.eqb v 0 = false.
Proof.
  intros (p & crval_out & cdelt_out & w2 & _ & Hn & Hc & Hk & ->).
  split; [exists w2; split; [exact Hc | apply commit_object_frame]|].
  apply convert_numbers_Ok in Hn as (_ & _ & _ & _ & _ & Hz).
  apply check_output_Ok in Hz as [_ Hz].
  apply commit_object_Ok in Hk as (Hi & _).
  eauto.
Qed.

Lemma Quantity_to_unit (q q' : Quantity) (unit : Unit)
    (equivalencies : list Equivalency) :
  Quantity_to q unit equivalencies = Ok q' -> unit_of q' = unit.
Proof.
  unfold Quantity_to. intros Hq.
  destruct (unit_to (unit_of q) unit); [injection Hq as <-; reflexivity|].
  destruct equivalencies; [discriminate|].
  inv_result Hq. injection Hq as <-. reflexivity.
Qed.

(** The reference value and the increment come out in the output unit. *)
Lemma convert_steps_units (p : Prelude) (inunit outunit : Unit)
    (cdelt0 : float) (crval_out cdelt_out : Quantity) :
  convert_steps p inunit outunit cdelt0 = Ok (crval_out, cdelt_out) ->
  unit_of crval_out = outunit /\ unit_of cdelt_out = outunit.
Proof.
  unfold convert_steps. intros Hv. inv_result Hv.
  all: repeat match goal with
              | E : rbind ?x _ = Ok _ |- _ =>
                  let E' := fresh "E" in
                  destruct x eqn:E'; cbn [rbind] in E; [|discriminate E]
              | E : match ?x with _ => _ end = Ok _ |- _ =>
                  let E' := fresh "E" in
                  destruct x eqn:E'; try discriminate E
              | E : Ok (_, _) = Ok (_, _) |- _ => injection E as <- <-
              end.
  all: repeat match goal with
              | Hq : Quantity_to _ _ _ = Ok _ |- _ =>
                  apply Quantity_to_unit in Hq
              end.
  all: split; assumption.
Qed.

(** A zero output increment never passes the check: the pass raises the
    zero-increment error after the read of the matrix and before any
    copy. *)
Lemma zero_increment_raises (mywcs : ref) (w : WCS)
    (wcs_rv rest_value : option Quantity) (inunit outunit : Unit)
    (out_ctype : string) (p : Prelude) (scale : matrix) (cdelt0 : float)
    (crval_out cdelt_out : Quantity) (st : Store) :
  st !! mywcs = Some w ->
  convert_prelude w wcs_rv inunit outunit out_ctype rest_value = Ok p ->
  (pixel_scale_matrix w).1 = Ok scale ->
  matrix_getitem scale (wcs_spec (pixel_scale_matrix w).2)
                 (wcs_spec (pixel_scale_matrix w).2) = Ok cdelt0 ->
  convert_steps p inunit outunit cdelt0 = Ok (crval_out, cdelt_out) ->
  PrimFloat.eqb (value cdelt_out) 0 = true ->
  convert_main mywcs wcs_rv inunit outunit out_ctype rest_value st
  = (Raise ZeroIncrementError, <[mywcs := (pixel_scale_matrix w).2]> st).
Proof.
  intros Hw Hp Hs Hc Hv Hz. rewrite convert_main_run, Hw, Hp.
  cbv zeta. unfold convert_numbers. rewrite Hs. cbn [rbind]. cbv zeta.
  rewrite Hc. cbn [rbind]. rewrite Hv. cbn [rbind].
  apply convert_steps_units in Hv as [Hu1 Hu2].
  unfold check_output. rewrite Hz.
  case_decide; [congruence|reflexivity].
Qed.
End ConverterTheorems.




Section StoreEffect.
Context `{Astropy}.

Lemma main_ok_pass (w w' : WCS) (wcs_rv rest_value : option Quantity)
    (inunit outunit : Unit) (out_ctype : string) :
  main_ok w wcs_rv inunit outunit out_ctype rest_value w' -> pass w w'.
Proof. intros Hm. apply main_ok_frame in Hm as [Hp _]. exact Hp. Qed.
End StoreEffect.




(** C5 fails on the code: the round trip of the frequency axis through
    radio velocity in km/s gives the reference value back and an increment
    1000 times the original.  The object of the first conversion is in
    km/s; the second conversion reads its unit (line 215), then its pixel
    scale matrix (line 283), which sets the object in m/s, and takes the
    increment in m/s for one in km/s. *)
Lemma round_trip_through_km_per_s :
  @round_trip Reference.astropy freq_axis u.Hz "FREQ" u.km_per_s "VRAD"
    (Some hi_rest) = Some false /\
  (@convert_spectral_axis Reference.astropy 0%nat u.km_per_s "VRAD"
     (Some hi_rest) [freq_axis]).1 = Ok 1%nat /\
  (@convert_spectral_axis Reference.astropy 1%nat u.Hz "FREQ"
     (Some hi_rest)
     (@convert_spectral_axis Reference.astropy 0%nat u.km_per_s "VRAD"
        (Some hi_rest) [freq_axis]).2).1 = Ok 2%nat /\
  spectral_point freq_axis = Some (1.4e9%float, 1e5%float) /\
  point_close 1e-9
    ((@convert_spectral_axis Reference.astropy 1%nat u.Hz "FREQ"
        (Some hi_rest)
        (@convert_spectral_axis Reference.astropy 0%nat u.km_per_s "VRAD"
           (Some hi_rest) [freq_axis]).2).2 !! 2%nat ≫= spectral_point)
    1.4e9 (1000 * 1e5) = true.
Proof. repeat split; vm_compute; reflexivity. Qed.

(** The same round trip through m/s does come back. *)
Example round_trip_through_m_per_s :
  @round_trip Reference.astropy freq_axis u.Hz "FREQ" u.m_per_s "VRAD"
    (Some hi_rest) = Some true.
Proof. vm_compute. reflexivity. Qed.

(** ** The rest fields *)

Section RestFields.
Context `{Astropy}.

Lemma resolve_rest_value_Ok (inunit outunit : Unit)
    (rest_value wcs_rv rv' ref_value : option Quantity) :
  resolve_rest_value inunit outunit rest_value wcs_rv
  = Ok (rv', ref_value) ->
  rv' = rest_value \/ (rest_value = None /\ rv' = wcs_rv).
Proof.
  unfold resolve_rest_value. intros Hr.
  destruct (str_contains "speed" (parse_phys_type outunit)).
  - destruct rest_value as [rv|]; [|destruct wcs_rv as [rv|]];
      cbn [rbind] in Hr; try discriminate;
      inv_result Hr; injection Hr as <- _; auto.
  - destruct (str_contains "speed" (parse_phys_type inunit)).
    + destruct rest_value, wcs_rv; try discriminate;
        injection Hr as <- _; auto.
    + injection Hr as <- _; auto.
Qed.

(** The rest value the commit stage finds is the one of the call or, when
    the call gives none, the one of the axis. *)
Lemma convert_prelude_rest_value (w : WCS)
    (wcs_rv rest_value : option Quantity) (inunit outunit : Unit)
    (out_ctype : string) (p : Prelude) :
  convert_prelude w wcs_rv inunit outunit out_ctype rest_value = Ok p ->
  pre_rest_value p = rest_value \/
  (rest_value = None /\ pre_rest_value p = wcs_rv).
Proof.
  unfold convert_prelude. intros Hv.
  destruct (list_getitem (wcs_ctype w) (wcs_spec w)) as [in_spec_ctype|];
    [|discriminate].
  cbn [rbind] in Hv.
  destruct (resolve_rest_value _ _ _ _) as [[rv0 ref_value]|] eqn:Hr;
    [|discriminate].
  apply resolve_rest_value_Ok in Hr.
  cbn [rbind] in Hv.
  inv_result Hv. injection Hv as <-. exact Hr.
Qed.

(** The library's copy and the read of the matrix keep the rest fields. *)
Lemma library_keeps_quiet (k : bool) (w w2 : WCS) :
  quiet k w -> wcs_deepcopy (pixel_scale_matrix w).2 = Ok w2 -> quiet k w2.
Proof.
  intros Hq Hc.
  pose proof (wcs_deepcopy_rest (pixel_scale_matrix w).2) as Hd.
  rewrite Hc in Hd. destruct Hd as [Hf Hl].
  destruct (pixel_scale_matrix_rest w) as [Hf' Hl'].
  unfold quiet in *. destruct k; congruence.
Qed.

Lemma main_ok_quiet (k : bool) (w w' : WCS)
    (wcs_rv rest_value : option Quantity) (inunit outunit : Unit)
    (out_ctype : string) :
  quiet k w -> not_other k rest_value -> not_other k wcs_rv ->
  main_ok w wcs_rv inunit outunit out_ctype rest_value w' ->
  quiet k w'.
Proof.
  intros Hq Hn1 Hn2 (p & crval_out & cdelt_out & w2 & Hv & _ & Hc & Hk & ->).
  apply convert_prelude_rest_value in Hv.
  assert (Hn : not_other k (pre_rest_value p))
    by (destruct Hv as [->|[_ ->]]; assumption).
  pose proof (library_keeps_quiet k w w2 Hq Hc) as Hq2.
  apply commit_object_Ok in Hk as (_ & Hf & Hl).
  unfold quiet in *. destruct k.
  - destruct Hl as [->|(rv & Hrv & Hkind)]; [assumption|].
    exfalso. eapply Hn; eauto.
  - destruct Hf as [->|(rv & Hrv & Hkind)]; [assumption|].
    exfalso. eapply Hn; eauto.
Qed.

Lemma quiet_at_most_one (k : bool) (w : WCS) :
  quiet k w -> at_most_one_rest w.
Proof.
  unfold quiet, at_most_one_rest. destruct k; intros ->;
    [apply andb_false_r | reflexivity].
Qed.

(** The kind that stays in use through a call. *)
Lemma choose_kind (w : WCS) (rest_value : option Quantity) :
  at_most_one_rest w -> same_kind_as_axis w rest_value ->
  exists k, quiet k w /\ not_other k rest_value /\
            not_other k (get_rest_value_from_wcs w).
Proof.
  unfold at_most_one_rest, same_kind_as_axis, quiet, not_other,
    get_rest_value_from_wcs.
  intros Hone Hkind.
  destruct (truthy (wcs_restfrq w)) eqn:Hf.
  - simpl in Hone. exists true. split; [assumption|]. split.
    + intros rv -> Hl. apply Hkind in Hl; [congruence|reflexivity].
    + intros rv [= <-]. discriminate.
  - destruct (truthy (wcs_restwav w)) eqn:Hl.
    + exists false. split; [assumption|]. split.
      * intros rv -> Hfq. apply Hkind in Hfq; [congruence|reflexivity].
      * intros rv [= <-]. discriminate.
    + destruct rest_value as [rv|].
      * destruct (decide (parse_phys_type (unit_of rv) = "length"))
          as [Hlen|Hlen].
        -- exists false. split; [assumption|]. split; [|discriminate].
           intros ? [= <-]. rewrite Hlen. discriminate.
        -- exists true. split; [assumption|]. split; [|discriminate].
           intros ? [= <-]. assumption.
      * exists true. split; [assumption|]. split; discriminate.
Qed.
End RestFields.

(** C8, as the code has it: the object returned has at most one rest field
    set when the input has at most one set and the rest value of the call,
    if any, is of the kind of the one the axis carries.  The function only
    ever writes the rest field of the kind of the rest value in force and
    never clears the other. *)
Theorem convert_keeps_at_most_one_rest_field `{Astropy}
    (st st' : Store) (mywcs newwcs : ref) (w : WCS) (outunit : Unit)
    (out_ctype : string) (rest_value : option Quantity) :
  st !! mywcs = Some w ->
  at_most_one_rest w ->
  same_kind_as_axis w rest_value ->
  convert_spectral_axis mywcs outunit out_ctype rest_value st
  = (Ok newwcs, st') ->
  exists w', st' !! newwcs = Some w' /\ at_most_one_rest w'.
Proof.
  intros Hw Hone Hkind Hr.
  destruct (choose_kind w rest_value Hone Hkind) as (k & Hq & Hn1 & Hn2).
  apply convert_spectral_axis_Ok in Hr
    as (w0 & inunit & Hw0 & Hu & [Hnoop|[Hdirect|Hrec]]).
  all: rewrite Hw in Hw0; injection Hw0 as <-.
  - destruct Hnoop as (_ & _ & w0 & Hc & -> & ->).
    exists w0. rewrite lookup_last. split; [reflexivity|].
    pose proof (wcs_deepcopy_rest w) as Hd. rewrite Hc in Hd.
    destruct Hd as [Hf Hl]. unfold at_most_one_rest in *.
    rewrite Hf, Hl. exact Hone.
  - destruct Hdirect as (_ & w' & -> & -> & Hm).
    exists w'. rewrite lookup_new. split; [reflexivity|].
    apply (quiet_at_most_one k).
    eapply main_ok_quiet; [exact Hq | exact Hn1 | exact Hn2 | exact Hm].
  - destruct Hrec as (_ & rv & ct & w1 & inunit1 & w' & Hrv & Hm1 & _ & Hm2
                      & -> & ->).
    rewrite Hrv in Hn2.
    exists w'. rewrite lookup_new_second. split; [reflexivity|].
    apply (quiet_at_most_one k).
    eapply main_ok_quiet; [| exact Hn1 | exact Hn2 | exact Hm2].
    eapply main_ok_quiet; [exact Hq | exact Hn2 | exact Hn2 | exact Hm1].
Qed.

Lemma convert_keeps_at_most_one_rest_field_witness :
  exists w',
    (@convert_spectral_axis Reference.astropy 0%nat u.m_per_s "VOPT-F2W"
       (Some hi_rest) [radio_axis]).2 !! 2%nat = Some w' /\
    at_most_one_rest w'.
Proof.
  apply (@convert_keeps_at_most_one_rest_field Reference.astropy
           [radio_axis] _ 0%nat 2%nat radio_axis u.m_per_s "VOPT-F2W"
           (Some hi_rest)).
  - reflexivity.
  - reflexivity.
  - intros rv [= <-]. split; [reflexivity | discriminate].
  - vm_compute. reflexivity.
Defined.

(** C8 as stated fails: a rest frequency given to a conversion on an axis
    that carries a rest wavelength leaves both fields set. *)
Lemma convert_sets_both_rest_fields :
  at_most_one_rest wav_rest_axis /\
  @convert_spectral_axis Reference.astropy 0%nat u.Hz "FREQ" (Some hi_rest)
    [wav_rest_axis]
  = (Ok 1%nat,
     [wav_rest_axis;
      mkWCS [1.4e9%float] [1e5%float] [1%float] [u.Hz] ["FREQ"] None
            [[1%float]] 0 1420405751.786%float 0.21%float]) /\
  truthy 1420405751.786%float && truthy 0.21%float = true.
Proof. repeat split; vm_compute; reflexivity. Qed.

(** C10, as the code has it: a stored rest frequency of exactly 0 is
    absent, so the rest wavelength is the rest value, and there is none
    when both are 0; a conversion to a speed, with no rest value in the
    call, of such an axis given in a unit that is not a speed raises the
    missing-rest-value error and leaves the store as it was. *)
Theorem zero_rest_frequency_is_absent `{Astropy} (w : WCS) :
  PrimFloat.eqb (wcs_restfrq w) 0 = true ->
  get_rest_value_from_wcs w
  = (if truthy (wcs_restwav w) then Some (mkQ (wcs_restwav w) u.m)
     else None) /\
  (PrimFloat.eqb (wcs_restwav w) 0 = true ->
   get_rest_value_from_wcs w = None /\
   forall (st : Store) (mywcs : ref) (inunit outunit : Unit)
          (out_ctype : string),
     st !! mywcs = Some w ->
     wcs_cunit w !! wcs_spec w = Some inunit ->
     is_Some (wcs_ctype w !! wcs_spec w) ->
     is_speed inunit = false ->
     is_speed outunit = true ->
     convert_spectral_axis mywcs outunit out_ctype None st
     = (Raise MissingRestValueError_to_speed, st)).
Proof.
  intros Hf.
  assert (Hget : get_rest_value_from_wcs w
                 = (if truthy (wcs_restwav w)
                    then Some (mkQ (wcs_restwav w) u.m) else None)).
  { unfold get_rest_value_from_wcs, truthy at 1. rewrite Hf. reflexivity. }
  split; [exact Hget|].
  intros Hl.
  assert (Hnone : get_rest_value_from_wcs w = None).
  { rewrite Hget. unfold truthy. rewrite Hl. reflexivity. }
  split; [exact Hnone|].
  intros st mywcs inunit outunit out_ctype Hw Hu [ct Hct] Hin Hout.
  rewrite convert_spectral_axis_run, Hw.
  unfold list_getitem at 1. rewrite Hu, Hin. cbn [andb].
  rewrite convert_main_run, Hw, Hnone.
  unfold convert_prelude, list_getitem at 1. rewrite Hct. cbn [rbind].
  unfold resolve_rest_value.
  apply bool_decide_eq_true_1 in Hout. rewrite Hout.
  reflexivity.
Qed.

Lemma zero_rest_frequency_is_absent_witness :
  get_rest_value_from_wcs freq_axis
  = (if truthy (wcs_restwav freq_axis)
     then Some (mkQ (wcs_restwav freq_axis) u.m) else None) /\
  get_rest_value_from_wcs freq_axis = None /\
  @convert_spectral_axis Reference.astropy 0%nat u.km_per_s "VRAD" None
    [freq_axis]
  = (Raise MissingRestValueError_to_speed, [freq_axis]).
Proof.
  pose proof (@zero_rest_frequency_is_absent Reference.astropy freq_axis
                eq_refl) as [Hget Hrest].
  destruct (Hrest eq_refl) as [Hnone Hconv].
  split; [exact Hget|]. split; [exact Hnone|].
  apply (Hconv [freq_axis] 0%nat u.Hz u.km_per_s "VRAD");
    [reflexivity | reflexivity | eexists; reflexivity
     | reflexivity | reflexivity].
Defined.

(** C10 as stated fails when the axis is itself in a speed: with both rest
    fields 0 and no rest value in the call, the conversion to a speed
    returns the library's copy and raises nothing. *)
Lemma convert_to_speed_without_rest_value_returns :
  wcs_restfrq velocity_cube = 0%float /\
  wcs_restwav velocity_cube = 0%float /\
  get_rest_value_from_wcs velocity_cube = None /\
  @convert_spectral_axis Reference.astropy 0%nat u.m_per_s "VELO-F2V" None
    [velocity_cube]
  = (Ok 1%nat, [velocity_cube; velocity_cube_si]).
Proof. repeat split. Qed.

(** * Further properties of the module *)

(** ** The tables *)

Lemma LINEAR_CUNIT_DICT_eq :
  LINEAR_CUNIT_DICT
  = [("VRAD", u.Hz); ("VOPT", u.m); ("FREQ", u.Hz); ("WAVE", u.m);
     ("VELO", u.m_per_s); ("AWAV", u.m); ("F", u.Hz); ("W", u.m);
     ("V", u.m_per_s)].
Proof. reflexivity. Qed.

Lemma CTYPE_TO_PHYSICALTYPE_eq :
  CTYPE_TO_PHYSICALTYPE
  = [("WAVE", "length"); ("AIR", "air wavelength");
     ("AWAV", "air wavelength"); ("FREQ", "frequency"); ("VELO", "speed");
     ("VRAD", "speed"); ("VOPT", "speed"); ("W", "length");
     ("A", "air wavelength"); ("F", "frequency"); ("V", "speed")].
Proof. reflexivity. Qed.

(** Case analysis on the key of a lookup in a table written out. *)
Ltac dict_cases :=
  repeat match goal with
         | H : context [decide (?a = ?b)] |- _ =>
             destruct (decide (a = b)); try subst; simpl in H
         | |- context [decide (?a = ?b)] =>
             destruct (decide (a = b)); try subst; simpl
         end.

(** X1: the three conventions are recognised under every name the module
    itself gives them: the function, the linear ctype of [LINEAR_CTYPES]
    and the letter of [LINEAR_CTYPE_CHARS]. *)
Theorem parse_velocity_convention_inverts_tables (d : Doppler) :
  _parse_velocity_convention (VFun d) = Some d /\
  (exists t, dict_get LINEAR_CTYPES d = Some t /\
             _parse_velocity_convention (VStr t) = Some d) /\
  (exists ch, dict_get LINEAR_CTYPE_CHARS d = Some ch /\
              _parse_velocity_convention (VStr ch) = Some d).
Proof.
  destruct d; (split; [reflexivity|]); split; eexists; split; reflexivity.
Qed.

(** X2: the tables agree with one another.  A letter of
    [CTYPE_CHAR_TO_PHYSICALTYPE] is found again from its physical type and
    is a key of [CTYPE_TO_PHYSICALTYPE]; the WCS unit of a letter has the
    physical type of that letter and is its linear unit; the unit
    [PHYS_UNIT_DICT] gives a physical type has that type. *)
Theorem tables_agree (k : string) :
  (forall p, dict_get CTYPE_CHAR_TO_PHYSICALTYPE k = Some p ->
     dict_get PHYSICAL_TYPE_TO_CTYPE p = Some k /\
     dict_get CTYPE_TO_PHYSICALTYPE k = Some p) /\
  (forall un, dict_get WCS_UNIT_DICT k = Some un ->
     dict_get CTYPE_TO_PHYSICALTYPE k = Some (parse_phys_type un) /\
     dict_get LINEAR_CUNIT_DICT k = Some un /\
     dict_get PHYSICAL_TYPE_TO_CHAR (parse_phys_type un) = Some k) /\
  (forall un, dict_get PHYS_UNIT_DICT k = Some un -> parse_phys_type un = k).
Proof.
  split; [|split]; intros x Hx.
  all: change CTYPE_CHAR_TO_PHYSICALTYPE
         with [("W", "length"); ("A", "air wavelength"); ("F", "frequency");
               ("V", "speed")] in *;
       change WCS_UNIT_DICT
         with [("F", u.Hz); ("W", u.m); ("V", u.m_per_s)] in *;
       change PHYS_UNIT_DICT
         with [("length", u.m); ("frequency", u.Hz); ("speed", u.m_per_s)]
         in *;
       simpl in Hx; dict_cases; try discriminate;
       injection Hx as <-; repeat split.
Qed.

Lemma tables_agree_witness :
  dict_get PHYSICAL_TYPE_TO_CTYPE "frequency" = Some "F" /\
  dict_get CTYPE_TO_PHYSICALTYPE "F" = Some "frequency".
Proof. apply (tables_agree "F"). reflexivity. Defined.

(** ** Physical types and WCS units *)

(** The physical type is read off the dimensions alone: the three types
    the module works with are those of the metre, the hertz and the metre
    per second, whatever the prefix of the unit. *)
Lemma parse_phys_type_dims (un : Unit) :
  (parse_phys_type un = "length" <-> same_dims u.m un = true) /\
  (parse_phys_type un = "frequency" <-> same_dims u.Hz un = true) /\
  (parse_phys_type un = "speed" <-> same_dims u.m_per_s un = true).
Proof.
  destruct un as [k a b].
  unfold parse_phys_type, physical_type, same_dims. simpl.
  repeat match goal with
         | |- context [match ?x with _ => _ end] => is_var x; destruct x
         end;
    repeat split; intros Hx; vm_compute in Hx |- *;
      first [reflexivity | discriminate Hx].
Qed.

(** X3: [wcs_unit_scale] never raises.  For a unit of length, frequency or
    speed, whatever its prefix, it returns the factor from the SI unit of
    that physical type ([PHYS_UNIT_DICT]) to the unit; for every other unit
    it returns [None]. *)
Theorem wcs_unit_scale_domain (unit : Unit) :
  (py_in (parse_phys_type unit) ["length"; "frequency"; "speed"] = true ->
   exists wu scale,
     dict_get PHYS_UNIT_DICT (parse_phys_type unit) = Some wu /\
     unit_to wu unit = Ok scale /\
     wcs_unit_scale unit = Ok (Some (rescale scale 1))) /\
  (py_in (parse_phys_type unit) ["length"; "frequency"; "speed"] = false ->
   wcs_unit_scale unit = Ok None).
Proof.
  destruct (parse_phys_type_dims unit) as (Hl & Hf & Hs).
  unfold wcs_unit_scale.
  change (dict_values WCS_UNIT_DICT) with [u.Hz; u.m; u.m_per_s].
  unfold py_in. split; intros Hin.
  - apply bool_decide_eq_true in Hin.
    rewrite !elem_of_cons in Hin.
    destruct Hin as [Hp|[Hp|[Hp|Hp]]]; [| | |by apply elem_of_nil in Hp].
    + rewrite Hp. apply Hl in Hp.
      destruct (unit_to_same_dims _ _ Hp) as (scale & Hto & _).
      exists u.m, scale. repeat split; [exact Hto|].
      simpl. destruct (same_dims u.Hz unit) eqn:Hd.
      { apply same_dims_spec in Hd, Hp. simpl in *. lia. }
      rewrite Hp, Hto. reflexivity.
    + rewrite Hp. apply Hf in Hp.
      destruct (unit_to_same_dims _ _ Hp) as (scale & Hto & _).
      exists u.Hz, scale. repeat split; [exact Hto|].
      simpl. rewrite Hp, Hto. reflexivity.
    + rewrite Hp. apply Hs in Hp.
      destruct (unit_to_same_dims _ _ Hp) as (scale & Hto & _).
      exists u.m_per_s, scale. repeat split; [exact Hto|].
      simpl. destruct (same_dims u.Hz unit) eqn:Hd.
      { apply same_dims_spec in Hd, Hp. simpl in *. lia. }
      destruct (same_dims u.m unit) eqn:Hd'.
      { apply same_dims_spec in Hd', Hp. simpl in *. lia. }
      rewrite Hp, Hto. reflexivity.
  - apply bool_decide_eq_false in Hin.
    rewrite !elem_of_cons in Hin.
    simpl.
    destruct (same_dims u.Hz unit);
      [assert (parse_phys_type unit = "frequency")
         by (apply Hf; reflexivity); tauto|].
    destruct (same_dims u.m unit);
      [assert (parse_phys_type unit = "length")
         by (apply Hl; reflexivity); tauto|].
    destruct (same_dims u.m_per_s unit);
      [assert (parse_phys_type unit = "speed")
         by (apply Hs; reflexivity); tauto|].
    reflexivity.
Qed.

(** From m/s to km/s the factor is 0.001; a time is no WCS unit. *)
Lemma wcs_unit_scale_domain_witness :
  (exists wu scale,
     dict_get PHYS_UNIT_DICT (parse_phys_type u.km_per_s) = Some wu /\
     unit_to wu u.km_per_s = Ok scale /\
     wcs_unit_scale u.km_per_s = Ok (Some (rescale scale 1))) /\
  wcs_unit_scale u.s = Ok None.
Proof.
  split.
  - apply (wcs_unit_scale_domain u.km_per_s). reflexivity.
  - apply (wcs_unit_scale_domain u.s). reflexivity.
Defined.

Example wcs_unit_scale_km_per_s :
  wcs_unit_scale u.km_per_s = Ok (Some 0.001%float).
Proof. vm_compute. reflexivity. Qed.

(** ** The header *)

Lemma dict_get_set_ne {V} (d : dict string V) (k k' : string) (v : V) :
  k <> k' -> dict_get (dict_set d k v) k' = dict_get d k'.
Proof.
  intros Hne. induction d as [|[k0 v0] d IH]; simpl.
  - destruct (decide (k = k')); [contradiction|reflexivity].
  - destruct (decide (k0 = k)) as [->|Hk]; simpl.
    + destruct (decide (k = k')); [contradiction|reflexivity].
    + destruct (decide (k0 = k')); [reflexivity|exact IH].
Qed.

Lemma append_inj_l (s a b : string) : s ++ a = s ++ b -> a = b.
Proof.
  induction s as [|ch s IH]; simpl; [auto|].
  intros [= Heq]. auto.
Qed.

Lemma py_str_int_inj (n m : Z) : py_str_int n = py_str_int m -> n = m.
Proof.
  assert (Hnil : forall z, Z.to_int z <> Decimal.Pos Decimal.Nil /\
                           Z.to_int z <> Decimal.Neg Decimal.Nil).
  { intros z. split; intros Hz;
      pose proof (f_equal Z.of_int Hz) as Hz';
      rewrite DecimalZ.of_to in Hz'; subst z; vm_compute in Hz;
      discriminate Hz. }
  unfold py_str_int. intros Heq.
  apply (f_equal NilZero.int_of_string) in Heq.
  rewrite !NilZero.isi in Heq by apply Hnil.
  injection Heq as Heq.
  rewrite <- (DecimalZ.of_to n), <- (DecimalZ.of_to m). congruence.
Qed.

(** X4: [unit_from_header] reads the card [CUNITn] and nothing else.
    Without that card it returns [None] and raises nothing; with it, it
    returns what the card parses to; and no other card of the header, the
    [CUNIT] of another axis in particular, changes the answer. *)
Theorem unit_from_header_reads_one_card
    (parse_unit : string -> Result Unit) (header : dict string string)
    (n : Z) :
  (dict_get header ("CUNIT" ++ py_str_int n) = None ->
   unit_from_header parse_unit header n = Ok None) /\
  (forall card, dict_get header ("CUNIT" ++ py_str_int n) = Some card ->
   unit_from_header parse_unit header n
   = let* un := parse_unit card in Ok (Some un)) /\
  (forall k v, k <> "CUNIT" ++ py_str_int n ->
   unit_from_header parse_unit (dict_set header k v) n
   = unit_from_header parse_unit header n) /\
  (forall m v, m <> n ->
   unit_from_header parse_unit
     (dict_set header ("CUNIT" ++ py_str_int m) v) n
   = unit_from_header parse_unit header n).
Proof.
  assert (Hother : forall k v, k <> "CUNIT" ++ py_str_int n ->
            unit_from_header parse_unit (dict_set header k v) n
            = unit_from_header parse_unit header n).
  { intros k v Hk. unfold unit_from_header, dict_mem, dict_item.
    rewrite dict_get_set_ne by exact Hk. reflexivity. }
  repeat split.
  - intros Hnone. unfold unit_from_header, dict_mem. rewrite Hnone.
    reflexivity.
  - intros card Hcard. unfold unit_from_header, dict_mem, dict_item.
    rewrite Hcard. reflexivity.
  - exact Hother.
  - intros m v Hm. apply Hother. intros Heq.
    apply Hm. apply py_str_int_inj.
    eapply append_inj_l. exact Heq.
Qed.

Lemma unit_from_header_reads_one_card_witness :
  unit_from_header (fun _ => Ok u.km_per_s)
    [("CUNIT1", "deg"); ("CUNIT2", "deg")] 3 = Ok None.
Proof.
  apply (unit_from_header_reads_one_card (fun _ => Ok u.km_per_s)
           [("CUNIT1", "deg"); ("CUNIT2", "deg")] 3).
  reflexivity.
Defined.

(** ** The resolver and the classifier together *)

Lemma in_physchar_one_char (ctype s : string) :
  in_physchar ctype = Ok s -> exists ch, s = String ch "".
Proof.
  unfold in_physchar. destruct (4 <? String.length ctype)%nat.
  - unfold py_getitem. destruct (String.get 5 ctype); [|discriminate].
    intros [= <-]. eauto.
  - intros Hs. inv_result Hs. unfold dict_item in Hs.
    change PHYSICAL_TYPE_TO_CHAR
      with [("speed", "V"); ("frequency", "F"); ("length", "W")] in Hs.
    simpl in Hs. dict_cases; try discriminate; injection Hs as <-; eauto.
Qed.

Lemma resolve_for_speed (ctype : string) (unit : Unit) (vc : PyVal)
    (out : CtypeEntry) :
  parse_phys_type unit = "speed" ->
  determine_ctype_from_vconv ctype unit (Some vc) = Ok out ->
  exists d root letter t,
    _parse_velocity_convention vc = Some d /\
    dict_get LINEAR_CTYPES d = Some root /\
    dict_get LINEAR_CTYPE_CHARS d = Some letter /\
    out = Ctype t /\ resolved_tag root letter t.
Proof.
  intros Hsp. unfold determine_ctype_from_vconv.
  destruct (in_physchar ctype) as [s|] eqn:Hs; [|discriminate].
  apply in_physchar_one_char in Hs as [ch ->]. cbn [rbind].
  destruct (decide _) as [_|Hn]; [|contradiction].
  destruct (_parse_velocity_convention vc) as [d|]; cbv zeta.
  - intros Hout. exists d.
    destruct (decide _) as [_|_];
      destruct d; vm_compute in Hout; injection Hout as <-;
      do 3 eexists; (repeat split; try reflexivity);
      first [ left; reflexivity | right; exists ch; reflexivity ].
  - destruct (decide _); discriminate.
Qed.

Lemma resolve_for_frequency_or_length (ctype : string) (unit : Unit)
    (vc : option PyVal) (out : CtypeEntry) :
  parse_phys_type unit <> "speed" ->
  determine_ctype_from_vconv ctype unit vc = Ok out ->
  exists root letter t,
    ((parse_phys_type unit = "frequency" /\ root = "FREQ" /\ letter = "F")
     \/ (parse_phys_type unit = "length" /\ root = "WAVE" /\ letter = "W"))
    /\ out = Ctype t /\ resolved_tag root letter t.
Proof.
  intros Hsp. unfold determine_ctype_from_vconv.
  destruct (in_physchar ctype) as [s|] eqn:Hs; [|discriminate].
  apply in_physchar_one_char in Hs as [ch ->]. cbn [rbind].
  destruct (decide (parse_phys_type unit = "speed")) as [|_];
    [contradiction|].
  destruct (dict_item CTYPE_TO_PHYSICALTYPE _) as [p|] eqn:Hp;
    [|discriminate].
  cbn [rbind]. destruct (decide (p = parse_phys_type unit)) as [Heq|Hne].
  - rewrite Heq. generalize dependent (parse_phys_type unit).
    intros q Hq -> Hout. unfold dict_item in Hout.
    change ALL_CTYPES
      with [("speed", CtypeTable LINEAR_CTYPES); ("frequency", Ctype "FREQ");
            ("length", Ctype "WAVE")] in Hout.
    simpl in Hout. dict_cases; try discriminate; try contradiction;
      injection Hout as <-; do 3 eexists;
      (split; [first [left; repeat split; reflexivity
                     | right; repeat split; reflexivity]|]);
      (split; [reflexivity | left; reflexivity]).
  - clear Hne Hp. generalize dependent (parse_phys_type unit).
    intros q Hq Hout. inv_result Hout. unfold dict_item in E, E0.
    change ALL_CTYPES
      with [("speed", CtypeTable LINEAR_CTYPES); ("frequency", Ctype "FREQ");
            ("length", Ctype "WAVE")] in E0.
    change PHYSICAL_TYPE_TO_CTYPE
      with [("length", "W"); ("air wavelength", "A"); ("frequency", "F");
            ("speed", "V")] in E.
    simpl in E, E0. dict_cases; try discriminate; try contradiction.
    all: injection E as <-; injection E0 as <-; simpl in Hout;
      injection Hout as <-; do 3 eexists;
      (split; [first [left; repeat split; reflexivity
                     | right; repeat split; reflexivity]|]);
      (split; [reflexivity | right; exists ch; reflexivity]).
Qed.

Ltac in_families :=
  unfold tag_families; rewrite !elem_of_cons; auto 10.

(** What holds of every tag the resolver builds: its length, its root, the
    convention the classifier reads in it, and the part of it the converter
    looks up. *)
Lemma resolved_tag_facts (root letter t : string) (d : Doppler) :
  (root, letter, d) ∈ tag_families ->
  resolved_tag root letter t ->
  (String.length t = 4%nat \/ String.length t = 8%nat) /\
  py_slice_to t 4 = root /\
  determine_vconv_from_ctype t = Ok (Some d) /\
  exists k p,
    conv_part t = Ok k /\
    dict_get CTYPE_TO_PHYSICALTYPE k = Some p /\
    p <> "air wavelength" /\
    dict_mem LINEAR_CUNIT_DICT k = true /\
    _parse_velocity_convention (VStr k) = Some d.
Proof.
  unfold tag_families. rewrite !elem_of_cons, elem_of_nil.
  intros [H|[H|[H|[H|[H|[]]]]]] [->|[ch ->]]; injection H as -> -> ->.
  all: split; [first [left; reflexivity | right; reflexivity]|].
  all: split; [reflexivity|]; split; [reflexivity|].
  all: do 2 eexists; repeat split; try reflexivity; discriminate.
Qed.

(** X5: a tag resolved for a speed under a convention is of 4 or 8
    characters, starts with the linear ctype of that convention, and is
    classified by [determine_vconv_from_ctype] as that convention. *)
Theorem resolved_speed_tag_is_classified (ctype : string) (unit : Unit)
    (vc : PyVal) (out : CtypeEntry) :
  parse_phys_type unit = "speed" ->
  determine_ctype_from_vconv ctype unit (Some vc) = Ok out ->
  exists d t,
    _parse_velocity_convention vc = Some d /\
    out = Ctype t /\
    (String.length t = 4%nat \/ String.length t = 8%nat) /\
    dict_get LINEAR_CTYPES d = Some (py_slice_to t 4) /\
    determine_vconv_from_ctype t = Ok (Some d).
Proof.
  intros Hsp Hout.
  destruct (resolve_for_speed _ _ _ _ Hsp Hout)
    as (d & root & letter & t & Hd & Hroot & Hletter & -> & Htag).
  assert (Hfam : (root, letter, d) ∈ tag_families).
  { unfold tag_families. rewrite !elem_of_cons.
    destruct d; vm_compute in Hroot, Hletter;
      injection Hroot as <-; injection Hletter as <-; auto. }
  destruct (resolved_tag_facts _ _ _ _ Hfam Htag) as (Hlen & Hsl & Hv & _).
  exists d, t. rewrite Hsl. auto.
Qed.

Lemma resolved_speed_tag_is_classified_witness :
  exists d t,
    _parse_velocity_convention (VStr "optical") = Some d /\
    Ctype "VOPT-F2W" = Ctype t /\
    (String.length t = 4%nat \/ String.length t = 8%nat) /\
    dict_get LINEAR_CTYPES d = Some (py_slice_to t 4) /\
    determine_vconv_from_ctype t = Ok (Some d).
Proof.
  apply (resolved_speed_tag_is_classified "FREQ" u.km_per_s (VStr "optical")
           (Ctype "VOPT-F2W")); reflexivity.
Defined.

Lemma resolver_ignores_convention (ctype : string) (unit : Unit)
    (vc : option PyVal) :
  parse_phys_type unit <> "speed" ->
  determine_ctype_from_vconv ctype unit vc
  = determine_ctype_from_vconv ctype unit None.
Proof.
  intros Hsp. unfold determine_ctype_from_vconv.
  destruct (in_physchar ctype); [|reflexivity]. cbn [rbind].
  destruct (decide _); [contradiction|reflexivity].
Qed.

(** X6: for a target that is not a speed the resolver succeeds only for a
    frequency or a length, pays no attention to the velocity convention,
    and returns a tag of 4 or 8 characters that starts with the ctype of
    the target, ['FREQ'] or ['WAVE'], which the classifier reads as the
    radio or the optical convention. *)
Theorem resolved_frequency_or_length_tag (ctype : string) (unit : Unit)
    (vc : option PyVal) (out : CtypeEntry) :
  parse_phys_type unit <> "speed" ->
  determine_ctype_from_vconv ctype unit vc = Ok out ->
  exists t d,
    out = Ctype t /\
    (String.length t = 4%nat \/ String.length t = 8%nat) /\
    dict_get ALL_CTYPES (parse_phys_type unit)
    = Some (Ctype (py_slice_to t 4)) /\
    ((parse_phys_type unit = "frequency" /\ d = doppler_radio) \/
     (parse_phys_type unit = "length" /\ d = doppler_optical)) /\
    determine_vconv_from_ctype t = Ok (Some d) /\
    determine_ctype_from_vconv ctype unit None = Ok out.
Proof.
  intros Hsp Hout.
  rewrite <- (resolver_ignores_convention ctype unit vc Hsp).
  destruct (resolve_for_frequency_or_length _ _ _ _ Hsp Hout)
    as (root & letter & t & Hkind & -> & Htag).
  destruct Hkind as [(Hp & -> & ->)|(Hp & -> & ->)].
  - destruct (resolved_tag_facts "FREQ" "F" t doppler_radio)
      as (Hlen & Hsl & Hv & _); [in_families | exact Htag |].
    exists t, doppler_radio. rewrite Hsl, Hp. auto 10.
  - destruct (resolved_tag_facts "WAVE" "W" t doppler_optical)
      as (Hlen & Hsl & Hv & _); [in_families | exact Htag |].
    exists t, doppler_optical. rewrite Hsl, Hp. auto 10.
Qed.

Lemma resolved_frequency_or_length_tag_witness :
  exists t d,
    Ctype "WAVE-F2W" = Ctype t /\
    (String.length t = 4%nat \/ String.length t = 8%nat) /\
    dict_get ALL_CTYPES (parse_phys_type u.um)
    = Some (Ctype (py_slice_to t 4)) /\
    ((parse_phys_type u.um = "frequency" /\ d = doppler_radio) \/
     (parse_phys_type u.um = "length" /\ d = doppler_optical)) /\
    determine_vconv_from_ctype t = Ok (Some d) /\
    determine_ctype_from_vconv "VELO-F2V" u.um None = Ok (Ctype "WAVE-F2W").
Proof.
  apply (resolved_frequency_or_length_tag "VELO-F2V" u.um
           (Some (VStr "radio")) (Ctype "WAVE-F2W"));
    [discriminate | reflexivity].
Defined.

(** X7: for a speed, when the letter of the current ctype can be found
    (the ctype has 6 characters or more, or is a key of
    [LINEAR_CUNIT_DICT]): with no convention, a tag that starts with [V] is
    returned as it is and any other fails for want of a convention; a
    convention the module does not know fails with a [KeyError], never with
    a tag.  A ctype of at most 4 characters that is no key of
    [LINEAR_CUNIT_DICT] (['VREL'], ['XPOS']) fails first, with the
    [KeyError] of the ctype, whatever the convention. *)
Theorem resolver_without_usable_convention (ctype : string) (unit : Unit) :
  parse_phys_type unit = "speed" ->
  ((6 <= String.length ctype)%nat \/
   dict_mem LINEAR_CUNIT_DICT ctype = true ->
   (String.get 0 ctype = Some "V"%char ->
    determine_ctype_from_vconv ctype unit None = Ok (Ctype ctype)) /\
   (String.get 0 ctype <> Some "V"%char ->
    determine_ctype_from_vconv ctype unit None
    = Raise MissingConventionError) /\
   (forall vc, _parse_velocity_convention vc = None ->
    determine_ctype_from_vconv ctype unit (Some vc)
    = Raise (KeyError "None"))) /\
  ((String.length ctype <= 4)%nat ->
   dict_mem LINEAR_CUNIT_DICT ctype = false ->
   forall vc, determine_ctype_from_vconv ctype unit vc
              = Raise (KeyError ctype)).
Proof.
  intros Hsp. split.
  - intros Hknown.
    assert (Hs : exists s, in_physchar ctype = Ok s).
    { unfold in_physchar. destruct Hknown as [Hlen|Hkey].
      - replace (4 <? String.length ctype)%nat with true
          by (symmetry; apply Nat.ltb_lt; lia).
        destruct (get_lt_length ctype 5) as [ch Hch]; [lia|].
        unfold py_getitem. rewrite Hch. eauto.
      - unfold dict_mem in Hkey. rewrite LINEAR_CUNIT_DICT_eq in Hkey.
        simpl in Hkey. dict_cases; try discriminate Hkey; eauto. }
    destruct Hs as [s Hs].
    assert (Hne : exists a rest, ctype = String a rest).
    { destruct ctype as [|a rest]; [discriminate Hs | eauto]. }
    destruct Hne as (a & rest & ->).
    unfold determine_ctype_from_vconv. rewrite Hs. cbn [rbind].
    destruct (decide _) as [_|Hn]; [|contradiction].
    repeat split.
    + intros [= ->]. reflexivity.
    + intros Hv. simpl. destruct (decide _) as [Heq|_]; [|reflexivity].
      injection Heq as ->. contradiction.
    + intros vc ->. cbv zeta. destruct (decide _); reflexivity.
  - intros Hlen Hkey vc.
    unfold determine_ctype_from_vconv, in_physchar.
    replace (4 <? String.length ctype)%nat with false
      by (symmetry; apply Nat.ltb_ge; lia).
    unfold dict_item, dict_mem in *.
    destruct (dict_get LINEAR_CUNIT_DICT ctype); [discriminate|reflexivity].
Qed.

Lemma resolver_without_usable_convention_witness :
  determine_ctype_from_vconv "VOPT-F2W" u.km_per_s None
  = Ok (Ctype "VOPT-F2W") /\
  determine_ctype_from_vconv "WAVE" u.km_per_s None
  = Raise MissingConventionError /\
  determine_ctype_from_vconv "WAVE" u.km_per_s (Some (VStr "Radio"))
  = Raise (KeyError "None") /\
  determine_ctype_from_vconv "VREL" u.km_per_s None
  = Raise (KeyError "VREL").
Proof.
  split; [|split; [|split]].
  - apply (resolver_without_usable_convention "VOPT-F2W" u.km_per_s);
      [reflexivity | left; simpl; lia | reflexivity].
  - apply (resolver_without_usable_convention "WAVE" u.km_per_s);
      [reflexivity | right; reflexivity | discriminate].
  - apply (resolver_without_usable_convention "WAVE" u.km_per_s);
      [reflexivity | right; reflexivity | reflexivity].
  - apply (resolver_without_usable_convention "VREL" u.km_per_s);
      [reflexivity | simpl; lia | reflexivity].
Defined.

(** X8: a tag the resolver has built, for a frequency or a length or for a
    speed under a convention, is one the converter takes as output ctype:
    the part of it the converter looks up is a key of the tables, with a
    linear unit, and is not an air wavelength. *)
Theorem resolved_tag_is_convertible (ctype t : string) (unit : Unit)
    (vc : option PyVal) :
  parse_phys_type unit <> "speed" \/ vc <> None ->
  determine_ctype_from_vconv ctype unit vc = Ok (Ctype t) ->
  exists k p,
    conv_part t = Ok k /\
    dict_get CTYPE_TO_PHYSICALTYPE k = Some p /\
    p <> "air wavelength" /\
    dict_mem LINEAR_CUNIT_DICT k = true.
Proof.
  intros Hcase Hout.
  assert (Hfacts : exists root letter d,
            (root, letter, d) ∈ tag_families /\ resolved_tag root letter t).
  { destruct (decide (parse_phys_type unit = "speed")) as [Hsp|Hsp].
    - destruct Hcase as [Hn|Hvc]; [contradiction|].
      destruct vc as [vc|]; [|contradiction].
      destruct (resolve_for_speed _ _ _ _ Hsp Hout)
        as (d & root & letter & t' & Hd & Hroot & Hletter & [= <-] & Htag).
      exists root, letter, d. split; [|exact Htag].
      unfold tag_families. rewrite !elem_of_cons.
      destruct d; vm_compute in Hroot, Hletter;
        injection Hroot as <-; injection Hletter as <-; auto.
    - destruct (resolve_for_frequency_or_length _ _ _ _ Hsp Hout)
        as (root & letter & t' & Hkind & [= <-] & Htag).
      destruct Hkind as [(_ & -> & ->)|(_ & -> & ->)].
      + exists "FREQ", "F", doppler_radio. split; [in_families|exact Htag].
      + exists "WAVE", "W", doppler_optical. split; [in_families|exact Htag]. }
  destruct Hfacts as (root & letter & d & Hfam & Htag).
  destruct (resolved_tag_facts _ _ _ _ Hfam Htag)
    as (_ & _ & _ & k & p & Hk & Hp & Hair & Hlin & _).
  eauto 10.
Qed.

Lemma resolved_tag_is_convertible_witness :
  exists k p,
    conv_part "VELO-F2V" = Ok k /\
    dict_get CTYPE_TO_PHYSICALTYPE k = Some p /\
    p <> "air wavelength" /\
    dict_mem LINEAR_CUNIT_DICT k = true.
Proof.
  apply (resolved_tag_is_convertible "FREQ" "VELO-F2V" u.m_per_s
           (Some (VFun doppler_relativistic)));
    [right; discriminate | reflexivity].
Defined.

(** ** The derivative transformer: errors *)

(** X9: what [cdelt_derivative] does outside the supported pairs.  Equal
    types, air wavelength included, give the increment back; an air
    wavelength on one side only is a [TypeError]; two different types of
    which neither is a length, a frequency or an air wavelength are
    invalid frames.  None of this depends on the values, the [linear] flag
    or the rest value. *)
Theorem cdelt_derivative_unsupported_frames `{Astropy}
    (crval cdelt : Quantity) (linear : bool) (rest : option Quantity)
    (t t' : string) :
  cdelt_derivative crval cdelt t t linear rest = Ok cdelt /\
  (t <> "air wavelength" ->
   cdelt_derivative crval cdelt "air wavelength" t linear rest
   = Raise (TypeError
              "Air wavelength should be converted to vacuum earlier.") /\
   cdelt_derivative crval cdelt t "air wavelength" linear rest
   = Raise (TypeError "Conversion to air wavelength not supported.")) /\
  (t <> t' ->
   py_in t ["length"; "frequency"; "air wavelength"] = false ->
   py_in t' ["length"; "frequency"; "air wavelength"] = false ->
   cdelt_derivative crval cdelt t t' linear rest
   = Raise (ValueError "Invalid in/out frames")).
Proof.
  split; [|split].
  - unfold cdelt_derivative. destruct (decide (t = t)); [reflexivity|].
    contradiction.
  - intros Hair. split; unfold cdelt_derivative.
    + destruct (decide ("air wavelength" = t)) as [Heq|_];
        [symmetry in Heq; contradiction|].
      unfold set_eqb. simpl forallb.
      change (py_in "air wavelength" ["length"; "frequency"]) with false.
      change (py_in "air wavelength" ["frequency"; "length"]) with false.
      change (str_contains "speed" "air wavelength") with false.
      rewrite ?andb_false_r. simpl. reflexivity.
    + destruct (decide (t = "air wavelength")) as [|_]; [contradiction|].
      unfold set_eqb. simpl forallb.
      change (py_in "air wavelength" ["length"; "frequency"]) with false.
      change (py_in "air wavelength" ["frequency"; "length"]) with false.
      change (str_contains "speed" "air wavelength") with false.
      rewrite ?andb_false_r. simpl.
      destruct (decide (t = "air wavelength")); [contradiction|reflexivity].
  - intros Hne Ht Ht'. unfold cdelt_derivative.
    destruct (decide (t = t')) as [|_]; [contradiction|].
    unfold py_in in *.
    apply bool_decide_eq_false in Ht, Ht'.
    rewrite !elem_of_cons, elem_of_nil in Ht, Ht'.
    assert (Hs : set_eqb [t'; t] ["length"; "frequency"] = false).
    { unfold set_eqb, py_in. simpl forallb.
      rewrite (bool_decide_eq_false_2 (t' ∈ ["length"; "frequency"])).
      - reflexivity.
      - rewrite !elem_of_cons, elem_of_nil. tauto. }
    rewrite Hs.
    rewrite (bool_decide_eq_false_2 (t' ∈ ["frequency"; "length"]))
      by (rewrite !elem_of_cons, elem_of_nil; tauto).
    rewrite (bool_decide_eq_false_2 (t ∈ ["frequency"; "length"]))
      by (rewrite !elem_of_cons, elem_of_nil; tauto).
    rewrite andb_false_r. cbn [andb].
    destruct (decide (t = "air wavelength")); [tauto|].
    destruct (decide (t' = "air wavelength")); [tauto|reflexivity].
Qed.

Lemma cdelt_derivative_unsupported_frames_witness :
  @cdelt_derivative Reference.astropy hi_rest hi_rest "air wavelength"
    "length" true None
  = Raise (TypeError
             "Air wavelength should be converted to vacuum earlier.") /\
  @cdelt_derivative Reference.astropy hi_rest hi_rest "length"
    "air wavelength" true None
  = Raise (TypeError "Conversion to air wavelength not supported.").
Proof.
  apply (@cdelt_derivative_unsupported_frames Reference.astropy hi_rest
           hi_rest true None "length" "speed").
  discriminate.
Defined.

(** X10: between a speed and a frequency or a length, without a rest
    value, the derivative fails on the first use of the rest value, with
    the [AttributeError] of [None.to], for every reference value and
    increment and for both settings of [linear]. *)
Theorem cdelt_derivative_without_rest_value `{Astropy}
    (crval cdelt : Quantity) (linear : bool) (t : string) :
  t = "frequency" \/ t = "length" ->
  cdelt_derivative crval cdelt "speed" t linear None
  = Raise (AttributeError "'NoneType' object has no attribute 'to'") /\
  cdelt_derivative crval cdelt t "speed" linear None
  = Raise (AttributeError "'NoneType' object has no attribute 'to'").
Proof.
  intros [->| ->]; split; destruct linear; reflexivity.
Qed.

Lemma cdelt_derivative_without_rest_value_witness :
  @cdelt_derivative Reference.astropy hi_rest hi_rest "speed" "frequency"
    true None
  = Raise (AttributeError "'NoneType' object has no attribute 'to'") /\
  @cdelt_derivative Reference.astropy hi_rest hi_rest "frequency" "speed"
    true None
  = Raise (AttributeError "'NoneType' object has no attribute 'to'").
Proof.
  apply (@cdelt_derivative_without_rest_value Reference.astropy hi_rest
           hi_rest true "frequency").
  left. reflexivity.
Defined.

(** ** The derivative transformer: the Doppler derivatives *)

Lemma rest_to_same_unit `{Astropy} (r : float) (unit : Unit) :
  rest_to (Some (mkQ r unit)) unit = Ok (mkQ r unit).
Proof.
  unfold rest_to, Quantity_to, unit_to. simpl.
  destruct (decide (unit = unit)); [reflexivity|contradiction].
Qed.

(** X11: the linear Doppler derivatives, in SI units, for every increment
    [d] and rest value [r] (the reference value plays no part).  From a
    speed the increment is [d * r / c], negated for a frequency; to a speed
    it is [d * c / r], negated from a frequency. *)
Theorem cdelt_derivative_linear_doppler `{Astropy}
    (crval : Quantity) (d r : float) :
  let c := value constants.c in
  cdelt_derivative crval (mkQ d u.m_per_s) "speed" "frequency" true
    (Some (mkQ r u.Hz))
  = Ok (mkQ (- (d * r) / c)%float u.Hz) /\
  cdelt_derivative crval (mkQ d u.m_per_s) "speed" "length" true
    (Some (mkQ r u.m))
  = Ok (mkQ (d * r / c)%float u.m) /\
  cdelt_derivative crval (mkQ d u.Hz) "frequency" "speed" true
    (Some (mkQ r u.Hz))
  = Ok (mkQ (- (d * c) / r)%float u.m_per_s) /\
  cdelt_derivative crval (mkQ d u.m) "length" "speed" true
    (Some (mkQ r u.m))
  = Ok (mkQ (d * c / r)%float u.m_per_s).
Proof.
  intros c. unfold cdelt_derivative.
  repeat split; simpl;
    change (dict_item PHYS_UNIT_DICT "frequency") with (Ok u.Hz);
    change (dict_item PHYS_UNIT_DICT "length") with (Ok u.m);
    change (dict_item PHYS_UNIT_DICT "speed") with (Ok u.m_per_s);
    cbn [rbind]; rewrite rest_to_same_unit; reflexivity.
Qed.

(** X12: the relativistic Doppler derivatives ([linear] false), in SI
    units, for every reference value [v], increment [d] and rest value
    [r].  From a speed: [d * c * r / ((c + v) * sqrt(c**2 - v**2))],
    negated for a frequency.  To a speed:
    [4 * c * v * r**2 * d / (v**2 + r**2)**2], negated from a
    frequency. *)
Theorem cdelt_derivative_relativistic_doppler `{Astropy} (v d r : float) :
  let c := value constants.c in
  cdelt_derivative (mkQ v u.m_per_s) (mkQ d u.m_per_s) "speed" "frequency"
    false (Some (mkQ r u.Hz))
  = Ok (mkQ (- (d * c * r) / ((c + v) * PrimFloat.sqrt (c * c - v * v)))%float
            u.Hz) /\
  cdelt_derivative (mkQ v u.m_per_s) (mkQ d u.m_per_s) "speed" "length"
    false (Some (mkQ r u.m))
  = Ok (mkQ (d * c * r / ((c + v) * PrimFloat.sqrt (c * c - v * v)))%float
            u.m) /\
  cdelt_derivative (mkQ v u.Hz) (mkQ d u.Hz) "frequency" "speed" false
    (Some (mkQ r u.Hz))
  = Ok (mkQ (- (4 * c * v * (r * r) * d)
             / ((v * v + r * r) * (v * v + r * r)))%float u.m_per_s) /\
  cdelt_derivative (mkQ v u.m) (mkQ d u.m) "length" "speed" false
    (Some (mkQ r u.m))
  = Ok (mkQ (4 * c * v * (r * r) * d
             / ((v * v + r * r) * (v * v + r * r)))%float u.m_per_s).
Proof.
  intros c. unfold cdelt_derivative.
  repeat split; simpl;
    change (dict_item PHYS_UNIT_DICT "frequency") with (Ok u.Hz);
    change (dict_item PHYS_UNIT_DICT "length") with (Ok u.m);
    change (dict_item PHYS_UNIT_DICT "speed") with (Ok u.m_per_s);
    cbn [rbind]; rewrite ?rest_to_same_unit; reflexivity.
Qed.

(** At the rest frequency itself the relativistic step is [-d * c / r],
    the radio one: 21106 m/s for 100 kHz at the 21 cm line. *)
Example cdelt_derivative_at_rest :
  @cdelt_derivative Reference.astropy hi_rest (mkQ 1e5%float u.Hz)
    "frequency" "speed" false (Some hi_rest)
  = @cdelt_derivative Reference.astropy hi_rest (mkQ 1e5%float u.Hz)
      "frequency" "speed" true (Some hi_rest).
Proof. vm_compute. reflexivity. Qed.

(** ** Air and vacuum wavelengths *)

(** X13: on a length, whatever its prefix, [air_to_vac] multiplies the
    wavelength by a refraction factor and [vac_to_air] divides it by the
    same factor, both keeping the unit of their argument; on a quantity
    that is not a length the three functions raise the unit conversion
    error. *)
Theorem air_and_vacuum_share_the_index `{Astropy} (wavelength : Quantity) :
  (same_dims (unit_of wavelength) u.um = true ->
   exists n,
     air_to_vac wavelength
     = Ok (mkQ (n * value wavelength)%float (unit_of wavelength)) /\
     vac_to_air wavelength
     = Ok (mkQ (value wavelength / n)%float (unit_of wavelength))) /\
  (same_dims (unit_of wavelength) u.um = false ->
   air_to_vac wavelength = Raise UnitConversionError /\
   vac_to_air wavelength = Raise UnitConversionError /\
   air_to_vac_deriv wavelength = Raise UnitConversionError).
Proof.
  unfold air_to_vac, vac_to_air, air_to_vac_deriv, Quantity_to.
  split; intros Hd.
  - destruct (unit_to_same_dims _ _ Hd) as (scale & -> & _).
    cbn [rbind value]. eexists. split; reflexivity.
  - unfold unit_to. rewrite Hd.
    destruct (decide (unit_of wavelength = u.um)) as [Heq|_].
    { rewrite Heq in Hd. discriminate Hd. }
    repeat split.
Qed.

(** A wavelength of 0.5 micrometre given in metres, and a frequency. *)
Lemma air_and_vacuum_share_the_index_witness :
  (exists n,
     @air_to_vac Reference.astropy (mkQ 5e-7%float u.m)
     = Ok (mkQ (n * 5e-7)%float u.m) /\
     @vac_to_air Reference.astropy (mkQ 5e-7%float u.m)
     = Ok (mkQ (5e-7 / n)%float u.m)) /\
  @air_to_vac Reference.astropy hi_rest = Raise UnitConversionError.
Proof.
  split.
  - apply (@air_and_vacuum_share_the_index Reference.astropy
             (mkQ 5e-7%float u.m)). reflexivity.
  - apply (@air_and_vacuum_share_the_index Reference.astropy hi_rest).
    reflexivity.
Defined.

(** ** The axis converter: what is written, and what is refused *)

Section ConverterExtras.
Context `{Astropy}.

(** The assignments of a commit that succeeds, one by one. *)
Lemma commit_object_steps (w : WCS) (crval_out cdelt_out : Quantity)
    (out_ctype : string) (rest_value : option Quantity) :
  is_Ok (commit_object w crval_out cdelt_out out_ctype rest_value).1 = true ->
  exists w1 w2 w3 w4 w5,
    commit_increment (value cdelt_out) w = Ok w1 /\
    set_cunit (wcs_spec w) (unit_of cdelt_out) w1 = Ok w2 /\
    set_crval (wcs_spec w) (value crval_out) w2 = Ok w3 /\
    set_ctype (wcs_spec w) out_ctype w3 = Ok w4 /\
    commit_rest_field rest_value w4 = Ok w5 /\
    (commit_object w crval_out cdelt_out out_ctype rest_value).2 = w5.
Proof.
  unfold commit_object, on_object.
  destruct (commit_increment _ w) as [w1|] eqn:E1; [|discriminate].
  destruct (set_cunit _ _ w1) as [w2|] eqn:E2; [|discriminate].
  destruct (set_crval _ _ w2) as [w3|] eqn:E3; [|discriminate].
  destruct (set_ctype _ _ w3) as [w4|] eqn:E4; [|discriminate].
  destruct (commit_rest_field _ w4) as [w5|] eqn:E5; [|discriminate].
  intros _. exists w1, w2, w3, w4, w5. repeat split; assumption.
Qed.

Lemma set_cunit_Ok (w w' : WCS) (i : nat) (v : Unit) :
  set_cunit i v w = Ok w' ->
  wcs_cunit w' !! i = Some v /\ wcs_spec w' = wcs_spec w.
Proof.
  unfold set_cunit. intros Hs. inv_result Hs. injection Hs as <-.
  apply list_setitem_Ok in E as [-> Hi]. simpl.
  split; [apply list_lookup_insert_eq; exact Hi | reflexivity].
Qed.

Lemma set_crval_Ok (w w' : WCS) (i : nat) (v : float) :
  set_crval i v w = Ok w' ->
  wcs_crval w' !! i = Some v /\ wcs_spec w' = wcs_spec w /\
  wcs_cunit w' = wcs_cunit w.
Proof.
  unfold set_crval. intros Hs. inv_result Hs. injection Hs as <-.
  apply list_setitem_Ok in E as [-> Hi]. simpl.
  split; [apply list_lookup_insert_eq; exact Hi | split; reflexivity].
Qed.

Lemma set_ctype_Ok (w w' : WCS) (i : nat) (v : string) :
  set_ctype i v w = Ok w' ->
  wcs_ctype w' !! i = Some v /\ wcs_spec w' = wcs_spec w /\
  wcs_cunit w' = wcs_cunit w /\ wcs_crval w' = wcs_crval w.
Proof.
  unfold set_ctype. intros Hs. inv_result Hs. injection Hs as <-.
  apply list_setitem_Ok in E as [-> Hi]. simpl.
  split; [apply list_lookup_insert_eq; exact Hi | repeat split].
Qed.

(** The rest assignment: which field it writes, with what, and what it
    leaves alone. *)
Lemma commit_rest_field_Ok (rest_value : option Quantity) (w w' : WCS) :
  commit_rest_field rest_value w = Ok w' ->
  wcs_spec w' = wcs_spec w /\ wcs_cunit w' = wcs_cunit w /\
  wcs_crval w' = wcs_crval w /\ wcs_ctype w' = wcs_ctype w /\
  match rest_value with
  | None => w' = w
  | Some rv =>
      (parse_phys_type (unit_of rv) = "frequency" /\
       exists q, Quantity_to rv u.Hz [] = Ok q /\
                 wcs_restfrq w' = value q /\
                 wcs_restwav w' = wcs_restwav w) \/
      (parse_phys_type (unit_of rv) = "length" /\
       exists q, Quantity_to rv u.m [] = Ok q /\
                 wcs_restwav w' = value q /\
                 wcs_restfrq w' = wcs_restfrq w)
  end.
Proof.
  unfold commit_rest_field. destruct rest_value as [rv|].
  - repeat case_decide; intros Hs; try discriminate Hs; inv_result Hs;
      unfold set_restfrq, set_restwav in Hs; injection Hs as <-; simpl;
      (do 4 (split; [reflexivity|])); [left|right]; eauto 10.
  - intros [= <-]. repeat split.
Qed.

(** What one pass of lines 241-372 leaves on the spectral axis of the
    object it returns. *)
Lemma main_ok_written (w w' : WCS) (wcs_rv rest_value : option Quantity)
    (inunit outunit : Unit) (out_ctype : string) :
  main_ok w wcs_rv inunit outunit out_ctype rest_value w' ->
  wcs_cunit w' !! wcs_spec w' = Some outunit /\
  wcs_ctype w' !! wcs_spec w' = Some out_ctype /\
  exists rv',
    (rv' = rest_value \/ (rest_value = None /\ rv' = wcs_rv)) /\
    exists w4, commit_rest_field rv' w4 = Ok w'.
Proof.
  intros (p & crval_out & cdelt_out & w2 & Hv & Hn & _ & Hk & ->).
  apply convert_numbers_Ok in Hn as (scale & cdelt0 & _ & _ & Hs & _).
  pose proof (convert_steps_units _ _ _ _ _ _ Hs) as [_ Hu].
  pose proof (convert_prelude_rest_value _ _ _ _ _ _ _ Hv) as Hrv.
  apply commit_object_steps in Hk
    as (w1 & w3 & w4 & w5 & w6 & H1 & H2 & H3 & H4 & H5 & ->).
  apply commit_increment_frame in H1 as ([S1 _ _ _ _ _ _ _] & _).
  rewrite <- S1 in H2, H3, H4.
  apply set_cunit_Ok in H2 as (U2 & S2).
  rewrite <- S2 in H3, H4.
  apply set_crval_Ok in H3 as (_ & S3 & U3).
  rewrite <- S3 in H4.
  apply set_ctype_Ok in H4 as (T4 & S4 & U4 & _).
  pose proof (commit_rest_field_Ok _ _ _ H5) as (S5 & U5 & _ & T5 & _).
  split; [|split].
  - rewrite <- Hu.
    replace (wcs_spec w6) with (wcs_spec w1) by congruence.
    replace (wcs_cunit w6) with (wcs_cunit w3) by congruence.
    exact U2.
  - replace (wcs_spec w6) with (wcs_spec w4) by congruence.
    rewrite T5. exact T4.
  - exists (pre_rest_value p). split; [exact Hrv|]. exists w5. exact H5.
Qed.
End ConverterExtras.

Section ConverterOutcomes.
Context `{Astropy}.

(** The object a call returns is the library's copy of the no-op, or the
    result of a last pass of lines 241-372 with the arguments of the
    call. *)
Lemma convert_last_pass (mywcs newwcs : ref) (outunit : Unit)
    (out_ctype : string) (rest_value : option Quantity) (st st' : Store) :
  convert_spectral_axis mywcs outunit out_ctype rest_value st
  = (Ok newwcs, st') ->
  exists w inunit,
    st !! mywcs = Some w /\ wcs_cunit w !! wcs_spec w = Some inunit /\
    ((is_speed inunit = true /\ is_speed outunit = true /\
      get_rest_value_from_wcs w = None /\
      exists w0, wcs_deepcopy w = Ok w0 /\ newwcs = length st /\
                 st' = (st ++ [w0])%list) \/
     (exists w0 inunit0 w',
        st' !! newwcs = Some w' /\
        main_ok w0 (get_rest_value_from_wcs w) inunit0 outunit out_ctype
                rest_value w')).
Proof.
  intros Hr.
  apply convert_spectral_axis_Ok in Hr
    as (w & inunit & Hw & Hu & [Hnoop|[Hdirect|Hrec]]).
  all: exists w, inunit; split; [exact Hw|]; split; [exact Hu|].
  - destruct Hnoop as (Hsp & Hrv & w0 & Hc & -> & ->).
    apply andb_true_iff in Hsp as [Hs1 Hs2].
    left. eauto 10.
  - destruct Hdirect as (_ & w' & -> & -> & Hm).
    right. exists w, inunit, w'. rewrite lookup_new. auto.
  - destruct Hrec as (_ & rv & ct & w1 & inunit1 & w' & Hrv & _ & _ & Hm
                      & -> & ->).
    right. exists w1, inunit1, w'. rewrite lookup_new_second, Hrv. auto.
Qed.

Lemma is_speed_false_contains (unit : Unit) :
  is_speed unit = false ->
  str_contains "speed" (parse_phys_type unit) = false.
Proof.
  unfold is_speed, parse_phys_type.
  destruct (str_contains "speed" (physical_type unit)) eqn:Hc;
    [discriminate | auto].
Qed.

Lemma dict_mem_item {V} (d : dict string V) (k : string) :
  dict_mem d k = true -> exists v, dict_item d k = Ok v.
Proof.
  unfold dict_mem, dict_item. destruct (dict_get d k); [eauto|discriminate].
Qed.
End ConverterOutcomes.

(** X14: an object the converter returns carries, on its spectral axis, the
    output unit and the output ctype of the call, unless it is the
    library's copy of a speed axis without rest value asked for a speed,
    which is returned as the library made it, whatever was asked. *)
Theorem convert_labels_the_spectral_axis `{Astropy}
    (st st' : Store) (mywcs newwcs : ref) (outunit : Unit)
    (out_ctype : string) (rest_value : option Quantity) :
  convert_spectral_axis mywcs outunit out_ctype rest_value st
  = (Ok newwcs, st') ->
  (exists w inunit w0,
     st !! mywcs = Some w /\ wcs_cunit w !! wcs_spec w = Some inunit /\
     is_speed inunit = true /\ is_speed outunit = true /\
     get_rest_value_from_wcs w = None /\
     wcs_deepcopy w = Ok w0 /\ st' !! newwcs = Some w0) \/
  (exists w',
     st' !! newwcs = Some w' /\
     wcs_cunit w' !! wcs_spec w' = Some outunit /\
     wcs_ctype w' !! wcs_spec w' = Some out_ctype).
Proof.
  intros Hr.
  apply convert_last_pass in Hr as (w & inunit & Hw & Hu & [Hn|Hm]).
  - destruct Hn as (Hs1 & Hs2 & Hrv & w0 & Hc & -> & ->).
    left. exists w, inunit, w0. rewrite lookup_last. auto 10.
  - destruct Hm as (w0 & inunit0 & w' & Hl & Hm).
    apply main_ok_written in Hm as (Hcu & Hct & _).
    right. exists w'. auto.
Qed.

Lemma convert_labels_the_spectral_axis_witness :
  (exists w inunit w0,
     [freq_axis] !! 0%nat = Some w /\
     wcs_cunit w !! wcs_spec w = Some inunit /\
     is_speed inunit = true /\ is_speed u.m = true /\
     get_rest_value_from_wcs w = None /\
     @wcs_deepcopy Reference.astropy w = Ok w0 /\
     (@convert_spectral_axis Reference.astropy 0%nat u.m "WAVE-F2W" None
        [freq_axis]).2 !! 1%nat = Some w0) \/
  (exists w',
     (@convert_spectral_axis Reference.astropy 0%nat u.m "WAVE-F2W" None
        [freq_axis]).2 !! 1%nat = Some w' /\
     wcs_cunit w' !! wcs_spec w' = Some u.m /\
     wcs_ctype w' !! wcs_spec w' = Some "WAVE-F2W").
Proof.
  apply (@convert_labels_the_spectral_axis Reference.astropy [freq_axis] _
           0%nat 1%nat u.m "WAVE-F2W" None).
  vm_compute. reflexivity.
Defined.

(** X15: between two units that are not speeds, an output ctype that
    stands for an air wavelength (['AWAV'], ['AIR'], or a composite tag
    that ends in [A]) is refused with [NotImplementedError], whatever the
    values of the axis and the rest value, and the store is left as it
    was. *)
Theorem convert_to_air_wavelength_is_refused `{Astropy}
    (st : Store) (mywcs : ref) (w : WCS) (inunit outunit : Unit)
    (in_ctype out_ctype k : string) (rest_value : option Quantity) :
  st !! mywcs = Some w ->
  wcs_cunit w !! wcs_spec w = Some inunit ->
  wcs_ctype w !! wcs_spec w = Some in_ctype ->
  is_speed inunit = false ->
  is_speed outunit = false ->
  (String.length in_ctype <= 4)%nat \/ String.length in_ctype = 8%nat ->
  conv_part out_ctype = Ok k ->
  dict_get CTYPE_TO_PHYSICALTYPE k = Some "air wavelength" ->
  convert_spectral_axis mywcs outunit out_ctype rest_value st
  = (Raise (NotImplementedError
              "Conversion to air wavelength is not supported."), st).
Proof.
  intros Hw Hu Hct Hin Hout Hlen Hk Hair.
  rewrite convert_spectral_axis_run, Hw.
  unfold list_getitem at 1. rewrite Hu, Hin. cbn [andb].
  rewrite convert_main_run, Hw.
  unfold convert_prelude, list_getitem at 1. rewrite Hct. cbn [rbind].
  unfold resolve_rest_value.
  rewrite (is_speed_false_contains _ Hin), (is_speed_false_contains _ Hout).
  cbn [rbind].
  assert (Hlin : exists lin, conv_part in_ctype = Ok lin).
  { unfold conv_part. destruct Hlen as [Hl|Hl].
    - apply Nat.leb_le in Hl. rewrite Nat.ltb_antisym, Hl. eauto.
    - rewrite Hl. simpl.
      destruct (get_lt_length in_ctype 7) as [ch Hch]; [lia|].
      unfold py_getitem. rewrite Hch. eauto. }
  destruct Hlin as [lin ->]. cbn [rbind].
  assert (Hun : exists un,
            linear_unit_or lin (list_getitem (wcs_cunit w) (wcs_spec w))
            = Ok un).
  { unfold linear_unit_or. destruct (dict_mem _ lin) eqn:Hm.
    - apply dict_mem_item in Hm. exact Hm.
    - unfold list_getitem. rewrite Hu. eauto. }
  destruct Hun as [un ->]. cbn [rbind].
  rewrite Hk. cbn [rbind]. unfold dict_item at 1. rewrite Hair.
  cbn [rbind]. destruct (decide _); [reflexivity|contradiction].
Qed.

Lemma convert_to_air_wavelength_is_refused_witness :
  @convert_spectral_axis Reference.astropy 0%nat u.um "AWAV" None [freq_axis]
  = (Raise (NotImplementedError
              "Conversion to air wavelength is not supported."),
     [freq_axis]).
Proof.
  apply (@convert_to_air_wavelength_is_refused Reference.astropy [freq_axis]
           0%nat freq_axis u.Hz u.um "FREQ" "AWAV" "AWAV" None);
    try reflexivity.
  left. simpl. lia.
Defined.

(** X16: the conversion of a speed axis to a unit that is not a speed,
    with no rest value in the call nor on the axis, raises the
    missing-rest-value error of the speed side and leaves the store as it
    was. *)
Theorem convert_from_speed_needs_a_rest_value `{Astropy}
    (st : Store) (mywcs : ref) (w : WCS) (inunit outunit : Unit)
    (out_ctype : string) :
  st !! mywcs = Some w ->
  wcs_cunit w !! wcs_spec w = Some inunit ->
  is_Some (wcs_ctype w !! wcs_spec w) ->
  is_speed inunit = true ->
  is_speed outunit = false ->
  get_rest_value_from_wcs w = None ->
  convert_spectral_axis mywcs outunit out_ctype None st
  = (Raise MissingRestValueError_from_speed, st).
Proof.
  intros Hw Hu [ct Hct] Hin Hout Hrv.
  rewrite convert_spectral_axis_run, Hw.
  unfold list_getitem at 1. rewrite Hu, Hin, Hout. cbn [andb].
  rewrite convert_main_run, Hw, Hrv.
  unfold convert_prelude, list_getitem at 1. rewrite Hct. cbn [rbind].
  unfold resolve_rest_value.
  rewrite (is_speed_false_contains _ Hout).
  apply bool_decide_eq_true_1 in Hin. rewrite Hin. reflexivity.
Qed.

Lemma convert_from_speed_needs_a_rest_value_witness :
  @convert_spectral_axis Reference.astropy 0%nat u.GHz "FREQ" None
    [velocity_cube]
  = (Raise MissingRestValueError_from_speed, [velocity_cube]).
Proof.
  apply (@convert_from_speed_needs_a_rest_value Reference.astropy
           [velocity_cube] 0%nat velocity_cube u.km_per_s u.GHz "FREQ");
    try reflexivity.
  eexists. reflexivity.
Defined.

(** X17: when the call supplies a rest value and returns an object other
    than the library's copy of a speed axis without rest value, the rest
    value is written on that object: as [restfrq], rescaled to Hz, when it
    is a frequency, and as [restwav], rescaled to m, when it is a
    length. *)
Theorem convert_records_the_supplied_rest_value `{Astropy}
    (st st' : Store) (mywcs newwcs : ref) (outunit : Unit)
    (out_ctype : string) (rv : Quantity) :
  convert_spectral_axis mywcs outunit out_ctype (Some rv) st
  = (Ok newwcs, st') ->
  (exists w inunit w0,
     st !! mywcs = Some w /\ wcs_cunit w !! wcs_spec w = Some inunit /\
     is_speed inunit = true /\ is_speed outunit = true /\
     get_rest_value_from_wcs w = None /\
     wcs_deepcopy w = Ok w0 /\ st' !! newwcs = Some w0) \/
  (exists w' q,
     st' !! newwcs = Some w' /\
     ((parse_phys_type (unit_of rv) = "frequency" /\
       Quantity_to rv u.Hz [] = Ok q /\ wcs_restfrq w' = value q) \/
      (parse_phys_type (unit_of rv) = "length" /\
       Quantity_to rv u.m [] = Ok q /\ wcs_restwav w' = value q))).
Proof.
  intros Hr.
  apply convert_last_pass in Hr as (w & inunit & Hw & Hu & [Hn|Hm]).
  - destruct Hn as (Hs1 & Hs2 & Hrv & w0 & Hc & -> & ->).
    left. exists w, inunit, w0. rewrite lookup_last. auto 10.
  - destruct Hm as (w0 & inunit0 & w' & Hl & Hm).
    apply main_ok_written in Hm
      as (_ & _ & rv' & [->|[Hnone _]] & w4 & Hc); [|discriminate].
    apply commit_rest_field_Ok in Hc as (_ & _ & _ & _ & Hc).
    right. destruct Hc as [(Hk & q & Hq & Hf & _)|(Hk & q & Hq & Hf & _)];
      exists w', q; (split; [exact Hl|]); [left|right]; auto.
Qed.

Lemma convert_records_the_supplied_rest_value_witness :
  (exists w inunit w0,
     [freq_axis] !! 0%nat = Some w /\
     wcs_cunit w !! wcs_spec w = Some inunit /\
     is_speed inunit = true /\ is_speed u.km_per_s = true /\
     get_rest_value_from_wcs w = None /\
     @wcs_deepcopy Reference.astropy w = Ok w0 /\
     (@convert_spectral_axis Reference.astropy 0%nat u.km_per_s "VRAD"
        (Some hi_rest) [freq_axis]).2 !! 1%nat = Some w0) \/
  (exists w' q,
     (@convert_spectral_axis Reference.astropy 0%nat u.km_per_s "VRAD"
        (Some hi_rest) [freq_axis]).2 !! 1%nat = Some w' /\
     ((parse_phys_type (unit_of hi_rest) = "frequency" /\
       @Quantity_to Reference.astropy hi_rest u.Hz [] = Ok q /\
       wcs_restfrq w' = value q) \/
      (parse_phys_type (unit_of hi_rest) = "length" /\
       @Quantity_to Reference.astropy hi_rest u.m [] = Ok q /\
       wcs_restwav w' = value q))).
Proof.
  apply (@convert_records_the_supplied_rest_value Reference.astropy
           [freq_axis] _ 0%nat 1%nat u.km_per_s "VRAD" hi_rest).
  vm_compute. reflexivity.
Defined.

(** X18: a rest value supplied in a unit that is neither a frequency nor a
    length (a speed, say) is never accepted by a conversion: the call
    returns only in the case that ignores its arguments, the library's copy
    of a speed axis without rest value asked for a speed. *)
Theorem convert_refuses_other_rest_value_kinds `{Astropy}
    (st st' : Store) (mywcs newwcs : ref) (outunit : Unit)
    (out_ctype : string) (rv : Quantity) :
  parse_phys_type (unit_of rv) <> "frequency" ->
  parse_phys_type (unit_of rv) <> "length" ->
  convert_spectral_axis mywcs outunit out_ctype (Some rv) st
  = (Ok newwcs, st') ->
  exists w inunit w0,
    st !! mywcs = Some w /\ wcs_cunit w !! wcs_spec w = Some inunit /\
    is_speed inunit = true /\ is_speed outunit = true /\
    get_rest_value_from_wcs w = None /\
    wcs_deepcopy w = Ok w0 /\ st' = (st ++ [w0])%list /\
    newwcs = length st.
Proof.
  intros Hnf Hnl Hr.
  apply convert_last_pass in Hr as (w & inunit & Hw & Hu & [Hn|Hm]).
  - destruct Hn as (Hs1 & Hs2 & Hrv & w0 & Hc & -> & ->).
    exists w, inunit, w0. auto 10.
  - destruct Hm as (w0 & inunit0 & w' & Hl & Hm).
    apply main_ok_written in Hm
      as (_ & _ & rv' & [->|[Hnone _]] & w4 & Hc); [|discriminate].
    apply commit_rest_field_Ok in Hc as (_ & _ & _ & _ & Hc).
    destruct Hc as [(Hk & _)|(Hk & _)]; contradiction.
Qed.

Lemma convert_refuses_other_rest_value_kinds_witness :
  exists w inunit w0,
    [velocity_cube] !! 0%nat = Some w /\
    wcs_cunit w !! wcs_spec w = Some inunit /\
    is_speed inunit = true /\ is_speed u.m_per_s = true /\
    get_rest_value_from_wcs w = None /\
    @wcs_deepcopy Reference.astropy w = Ok w0 /\
    [velocity_cube; velocity_cube_si] = ([velocity_cube] ++ [w0])%list /\
    1%nat = length [velocity_cube].
Proof.
  apply (@convert_refuses_other_rest_value_kinds Reference.astropy
           [velocity_cube] [velocity_cube; velocity_cube_si] 0%nat 1%nat
           u.m_per_s "VOPT-F2W" (mkQ 1%float u.km_per_s)).
  - vm_compute. discriminate.
  - vm_compute. discriminate.
  - vm_compute. reflexivity.
Defined.

(** X19: the converter calls itself only from a speed axis with a rest
    value asked for a speed, and only with the unit of the rest value, Hz
    or m, as the output unit, so that a nested call never calls itself
    again: every recursion depth of two or more gives the result of depth
    two, which is the function. *)
Theorem convert_recursion_depth_is_two `{Astropy}
    (n : nat) (mywcs : ref) (outunit : Unit) (out_ctype : string)
    (rest_value : option Quantity) (st : Store) :
  convert_rec (S (S n)) mywcs outunit out_ctype rest_value st
  = convert_spectral_axis mywcs outunit out_ctype rest_value st.
Proof.
  apply convert_rec_fuel.
Qed.
